(** * The IoT dashboard controller of [src/pages/index.js]

    A shallow embedding of the [Home] component: its seven state cells, the two
    asynchronous loaders [fetchDevices] and [fetchDeviceData], the event
    handlers, the auto-refresh interval and the row rendering, together with the
    parts of the JavaScript host they rest on (values, truthiness, property
    reads, [Number], [Math.min]/[Math.max], [JSON.parse], [JSON.stringify]).

    Conventions of the model.
    - A JavaScript number is the rational it denotes or one of NaN,
      +Infinity, -Infinity, and -0 is 0. [Number] and [JSON.parse] round what
      they read to the nearest binary64 number.
    - A string is a Rocq [string] (a sequence of bytes, UTF-8 for text outside
      ASCII). The strings of a response are well-formed text; [JSON.parse] can
      give a string with a lone surrogate, held as the three bytes of its code
      point.
    - A template literal is kept as its pieces, the interpolated values not
      converted to text; where the source evaluates one inside a [try] block,
      the model throws when a value has no conversion to a string.
    - An [async] function is cut at its [await]: the part before it runs when
      the function is called, the part after it when the request settles. *)

From Stdlib Require Import String Ascii List ZArith QArith Bool Lia DecimalString.
Import ListNotations.
Open Scope string_scope.
Open Scope Z_scope.
Open Scope list_scope.
Set Warnings "-register-all".


(** ** JavaScript numbers *)

Inductive JsNumber : Type :=
| NaN
| NegInfinity
| Finite (q : Q)
| PosInfinity.

Definition num_of_Z (z : Z) : JsNumber := Finite (inject_Z z).

(** [a <= b] on numbers; any comparison with NaN is false. *)
Definition num_leb (a b : JsNumber) : bool :=
  match a, b with
  | NaN, _ | _, NaN => false
  | NegInfinity, _ => true
  | _, PosInfinity => true
  | Finite x, Finite y => Qle_bool x y
  | Finite _, NegInfinity => false
  | PosInfinity, _ => false
  end.

(** ToBoolean on a number: NaN and zero are falsy. *)
Definition num_truthy (n : JsNumber) : bool :=
  match n with
  | NaN => false
  | Finite q => negb (Qeq_bool q 0)
  | _ => true
  end.

(** [Math.min(a, b)] and [Math.max(a, b)]: NaN if either argument is. *)
Definition Math_min (a b : JsNumber) : JsNumber :=
  match a, b with
  | NaN, _ | _, NaN => NaN
  | _, _ => if num_leb a b then a else b
  end.

Definition Math_max (a b : JsNumber) : JsNumber :=
  match a, b with
  | NaN, _ | _, NaN => NaN
  | _, _ => if num_leb a b then b else a
  end.

(** ** Reading numerals *)

Definition is_digit (c : ascii) : bool :=
  let n := nat_of_ascii c in (48 <=? n)%nat && (n <=? 57)%nat.

Definition digit_val (c : ascii) : Z := Z.of_nat (nat_of_ascii c) - 48.

(** The value of a hexadecimal digit, if [c] is one. *)
Definition hex_val (c : ascii) : option Z :=
  let n := nat_of_ascii c in
  if (48 <=? n)%nat && (n <=? 57)%nat then Some (Z.of_nat n - 48)
  else if (65 <=? n)%nat && (n <=? 70)%nat then Some (Z.of_nat n - 55)
  else if (97 <=? n)%nat && (n <=? 102)%nat then Some (Z.of_nat n - 87)
  else None.

(** The longest prefix of digits, and what follows it. *)
Fixpoint span_digits (cs : list ascii) : list ascii * list ascii :=
  match cs with
  | c :: cs' =>
      if is_digit c
      then let (ds, rest) := span_digits cs' in (c :: ds, rest)
      else ([], cs)
  | [] => ([], [])
  end.

Definition digits_value (ds : list ascii) : Z :=
  fold_left (fun acc c => 10 * acc + digit_val c) ds 0.

(** All of [cs] read in base [base]; [None] on an empty or ill-formed numeral. *)
Definition radix_value (base : Z) (cs : list ascii) : option Z :=
  match cs with
  | [] => None
  | _ =>
      fold_left
        (fun acc c =>
           match acc, hex_val c with
           | Some a, Some d => if d <? base then Some (base * a + d) else None
           | _, _ => None
           end)
        cs (Some 0)
  end.

Definition pow10 (e : Z) : Q :=
  if 0 <=? e then inject_Z (10 ^ e) else 1 # Z.to_pos (10 ^ (- e)).

(** The number with integer digits [ip], fraction digits [fp], times ten to the [e]. *)
Definition decimal_value (ip fp : list ascii) (e : Z) : Q :=
  Qred (inject_Z (digits_value (ip ++ fp)) * pow10 (e - Z.of_nat (length fp))).

(** [n / d] rounded to the nearest integer, ties to the even one, for
    [0 <= n] and [0 < d]. *)
Definition round_half_even (n d : Z) : Z :=
  let q := n / d in
  match 2 * (n mod d) ?= d with
  | Lt => q
  | Gt => q + 1
  | Eq => if Z.even q then q else q + 1
  end.

(** The binary64 number nearest to [q], ties to the even significand: 53
    bits of significand above the exponent -1074 of the subnormal numbers, and
    an infinity from 2^1024 on. *)
Definition to_binary64 (q : Q) : JsNumber :=
  let n := Z.abs (Qnum q) in
  let d := Z.pos (Qden q) in
  if n =? 0 then Finite 0
  else
    let reaches (e : Z) :=
      if 0 <=? e then d * 2 ^ e <=? n else d <=? n * 2 ^ (- e) in
    let e0 := Z.log2 n - Z.log2 d in
    let e := if reaches e0 then e0 else e0 - 1 in
    let u := Z.max (e - 52) (-1074) in
    let m :=
      if 0 <=? u then round_half_even n (d * 2 ^ u)
      else round_half_even (n * 2 ^ (- u)) d in
    if (0 <=? u) && (2 ^ 1024 <=? m * 2 ^ u)
    then if Qnum q <? 0 then NegInfinity else PosInfinity
    else
      let magnitude :=
        if 0 <=? u then inject_Z (m * 2 ^ u) else Qred (m # Z.to_pos (2 ^ (- u))) in
      Finite (if Qnum q <? 0 then Qopp magnitude else magnitude).

(** An optional exponent part [e], [E] with a sign and digits. [None] when an
    exponent mark is followed by no digit. *)
Definition read_exponent (cs : list ascii) : option (Z * list ascii) :=
  match cs with
  | ("e" | "E")%char :: rest =>
      let '(neg, rest1) :=
        match rest with
        | "-"%char :: r => (true, r)
        | "+"%char :: r => (false, r)
        | _ => (false, rest)
        end in
      match span_digits rest1 with
      | ([], _) => None
      | (ds, rest2) =>
          Some (if neg : bool then - digits_value ds else digits_value ds, rest2)
      end
  | _ => Some (0, cs)
  end.

(** ** [Number(string)]

    StringToNumber of ECMA-262: white space is trimmed, the empty string is 0,
    then [Infinity] with an optional sign, an unsigned hexadecimal, octal or
    binary integer, or an optionally signed decimal literal; anything else is
    NaN. White space here is the ASCII one (tab, LF, VT, FF, CR, space). *)

Definition is_space (c : ascii) : bool :=
  let n := nat_of_ascii c in
  ((9 <=? n)%nat && (n <=? 13)%nat) || (n =? 32)%nat.

Fixpoint drop_spaces (cs : list ascii) : list ascii :=
  match cs with
  | c :: cs' => if is_space c then drop_spaces cs' else cs
  | [] => []
  end.

Definition trim (cs : list ascii) : list ascii :=
  rev (drop_spaces (rev (drop_spaces cs))).

(** An unsigned StrDecimalLiteral that is not [Infinity]: digits with an
    optional fraction, or a fraction alone, and an optional exponent. *)
Definition unsigned_decimal (cs : list ascii) : option Q :=
  let (ip, rest) := span_digits cs in
  let (fp, rest1) :=
    match rest with
    | "."%char :: r => span_digits r
    | _ => ([], rest)
    end in
  match ip, fp with
  | [], [] => None
  | _, _ =>
      match read_exponent rest1 with
      | Some (e, []) => Some (decimal_value ip fp e)
      | _ => None
      end
  end.

Definition signed_decimal (cs : list ascii) : JsNumber :=
  let '(neg, body) :=
    match cs with
    | "-"%char :: r => (true, r)
    | "+"%char :: r => (false, r)
    | _ => (false, cs)
    end in
  if string_dec (string_of_list_ascii body) "Infinity"
  then if neg : bool then NegInfinity else PosInfinity
  else
    match unsigned_decimal body with
    | Some q => to_binary64 (if neg : bool then - q else q)
    | None => NaN
    end.

Definition Number (s : string) : JsNumber :=
  match trim (list_ascii_of_string s) with
  | [] => num_of_Z 0
  | "0"%char :: ("x" | "X")%char :: ds =>
      match radix_value 16 ds with
      | Some z => to_binary64 (inject_Z z)
      | None => NaN
      end
  | "0"%char :: ("o" | "O")%char :: ds =>
      match radix_value 8 ds with
      | Some z => to_binary64 (inject_Z z)
      | None => NaN
      end
  | "0"%char :: ("b" | "B")%char :: ds =>
      match radix_value 2 ds with
      | Some z => to_binary64 (inject_Z z)
      | None => NaN
      end
  | cs => signed_decimal cs
  end.

(** ** JavaScript values *)

(** The values a JSON response can hold, and [undefined]. An object is the
    list of its own properties in enumeration order. *)
Inductive JsValue : Type :=
| JUndefined
| JNull
| JBool (b : bool)
| JNumber (n : JsNumber)
| JString (s : string)
| JArray (items : list JsValue)
| JObject (props : list (string * JsValue)).

(** ToBoolean: [undefined], [null], [false], NaN, zero and the empty string
    are falsy; every array and object is truthy. *)
Definition truthy (v : JsValue) : bool :=
  match v with
  | JUndefined | JNull => false
  | JBool b => b
  | JNumber n => num_truthy n
  | JString s => negb (String.eqb s EmptyString)
  | JArray _ | JObject _ => true
  end.

(** [a || b] on values already computed. *)
Definition js_or (a b : JsValue) : JsValue := if truthy a then a else b.

Fixpoint lookup (k : string) (props : list (string * JsValue)) : option JsValue :=
  match props with
  | (k', v) :: rest => if String.eqb k k' then Some v else lookup k rest
  | [] => None
  end.

(** What a [try] block can be left with. *)
Inductive Exn : Type :=
| NetworkError                 (* [fetch] rejected *)
| HttpError (code : Z)         (* [new Error(`HTTP ${res.status}`)] *)
| SyntaxError                  (* [res.json()] rejected *)
| TypeError                    (* property read on [null], call of a non-function,
                                  value with no conversion to a string *)
| InvalidChild.                (* React: an object is not valid as a child *)

Inductive Completion (A : Type) : Type :=
| Normal (a : A)
| Throw (e : Exn).
Arguments Normal {A} a.
Arguments Throw {A} e.

(** [v.k] for the property names the component reads ([device_name], [data],
    [timestamp], ...): none of them is inherited from a prototype, so the read
    is the own property of an object, [undefined] on any other value that can
    be boxed, and a TypeError on [null] and [undefined]. *)
Definition getProp (v : JsValue) (k : string) : Completion JsValue :=
  match v with
  | JUndefined | JNull => Throw TypeError
  | JObject props =>
      Normal (match lookup k props with Some x => x | None => JUndefined end)
  | _ => Normal JUndefined
  end.

(** A template literal: its text pieces and the values interpolated in it. *)
Inductive Piece : Type :=
| Lit (s : string)
| Interp (v : JsValue).

Definition Template : Type := list Piece.

(** Does ToString(v) return? On an object it calls the [toString] of the
    object: a value read from JSON is no function, so an own property of that
    name leaves the object without conversion to a primitive, and a TypeError is
    thrown; without it the inherited method answers. On an array it joins the
    conversions of the elements. *)
Fixpoint printable (v : JsValue) : bool :=
  match v with
  | JObject props =>
      match lookup "toString" props with
      | Some _ => false
      | None => true
      end
  | JArray items =>
      (fix all (xs : list JsValue) : bool :=
         match xs with
         | [] => true
         | x :: rest => printable x && all rest
         end) items
  | _ => true
  end.

Definition piece_printable (p : Piece) : bool :=
  match p with
  | Lit _ => true
  | Interp v => printable v
  end.

(** ** The component state *)

(** The seven [useState] cells of [Home]. *)
Record State : Type := mkState {
  devices : list JsValue;
  selectedDevice : JsValue;
  limit : JsNumber;
  rows : JsValue;
  status : Template;
  error : string;
  loading : bool
}.

(** The first render. *)
Definition initialState : State := {|
  devices := [];
  selectedDevice := JString EmptyString;
  limit := num_of_Z 50;
  rows := JArray [];
  status := [Lit "Initializing…"];
  error := EmptyString;
  loading := false
|}.

(** A request in flight with what its continuation holds in its closure. *)
Inductive Pending : Type :=
| AwaitDevices (limit : JsNumber)
    (* GET /devices, awaited by [fetchDevices], whose closure reads [limit] *)
| AwaitData (deviceName : JsValue) (limitValue : JsNumber) (showLoading : bool).
    (* GET /devices/{deviceName}/data?limit={limitValue}, awaited by
       [fetchDeviceData(deviceName, limitValue, showLoading)] *)

(** What a handler does besides returning, in order. *)
Inductive Effect : Type :=
| SetDevices (v : list JsValue)
| SetSelectedDevice (v : JsValue)
| SetLimit (v : JsNumber)
| SetRows (v : JsValue)
| SetStatus (v : Template)
| SetError (v : string)
| SetLoading (v : bool)
| Fetch (p : Pending)                       (* [fetch(url)] *)
| ConsoleError (e : Exn)                    (* [console.error(err)] *)
| Call_fetchDeviceData (deviceName : JsValue) (limitValue : JsNumber)
                       (showLoading : bool). (* entry of [fetchDeviceData] *)

(** ** The monad of handlers: state, a log of effects, exceptions *)

Definition M (A : Type) : Type := State -> Completion A * State * list Effect.

Definition ret {A} (a : A) : M A := fun s => (Normal a, s, []).

Definition bind {A B} (m : M A) (k : A -> M B) : M B :=
  fun s =>
    match m s with
    | (Normal a, s1, l1) => let '(r, s2, l2) := k a s1 in (r, s2, l1 ++ l2)
    | (Throw e, s1, l1) => (Throw e, s1, l1)
    end.

Declare Scope js_scope.
Delimit Scope js_scope with js.
Notation "x <- m ;; k" := (bind m (fun x => k))
  (at level 61, m at next level, right associativity) : js_scope.
Notation "m ;; k" := (bind m (fun _ => k))
  (at level 61, right associativity) : js_scope.
Open Scope js_scope.

Definition throw {A} (e : Exn) : M A := fun s => (Throw e, s, []).

(** A pure computation that may throw. *)
Definition lift {A} (c : Completion A) : M A := fun s => (c, s, []).

Definition emit (e : Effect) : M unit := fun s => (Normal tt, s, [e]).

(** [try { body } catch (err) { handler err }] *)
Definition try_catch {A} (body : M A) (handler : Exn -> M A) : M A :=
  fun s =>
    match body s with
    | (Normal a, s1, l1) => (Normal a, s1, l1)
    | (Throw e, s1, l1) => let '(r, s2, l2) := handler e s1 in (r, s2, l1 ++ l2)
    end.

(** [try { body } finally { final }] *)
Definition try_finally {A} (body : M A) (final : M unit) : M A :=
  fun s =>
    let '(r, s1, l1) := body s in
    match final s1 with
    | (Normal _, s2, l2) => (r, s2, l1 ++ l2)
    | (Throw e, s2, l2) => (Throw e, s2, l1 ++ l2)
    end.

Definition when (b : bool) (m : M unit) : M unit := if b then m else ret tt.

(** The evaluation of a template literal: a TypeError when one of the values
    has no conversion to a string. *)
Definition interpolate (t : Template) : M Template :=
  if forallb piece_printable t then ret t else throw TypeError.

(** The state setters. *)
Definition setDevices (v : list JsValue) : M unit := fun s =>
  (Normal tt, mkState v (selectedDevice s) (limit s) (rows s) (status s) (error s) (loading s),
   [SetDevices v]).
Definition setSelectedDevice (v : JsValue) : M unit := fun s =>
  (Normal tt, mkState (devices s) v (limit s) (rows s) (status s) (error s) (loading s),
   [SetSelectedDevice v]).
Definition setLimit (v : JsNumber) : M unit := fun s =>
  (Normal tt, mkState (devices s) (selectedDevice s) v (rows s) (status s) (error s) (loading s),
   [SetLimit v]).
Definition setRows (v : JsValue) : M unit := fun s =>
  (Normal tt, mkState (devices s) (selectedDevice s) (limit s) v (status s) (error s) (loading s),
   [SetRows v]).
Definition setStatus (v : Template) : M unit := fun s =>
  (Normal tt, mkState (devices s) (selectedDevice s) (limit s) (rows s) v (error s) (loading s),
   [SetStatus v]).
Definition setError (v : string) : M unit := fun s =>
  (Normal tt, mkState (devices s) (selectedDevice s) (limit s) (rows s) (status s) v (loading s),
   [SetError v]).
Definition setLoading (v : bool) : M unit := fun s =>
  (Normal tt, mkState (devices s) (selectedDevice s) (limit s) (rows s) (status s) (error s) v,
   [SetLoading v]).

(** The state and the effects a handler leaves. *)
Definition final {A} (m : M A) (s : State) : State := snd (fst (m s)).
Definition effects {A} (m : M A) (s : State) : list Effect := snd (m s).

(** A value of the render the handler closes over. *)
Definition read {A} (cell : State -> A) : M A := fun s => (Normal (cell s), s, []).

(** ** HTTP responses *)

Record Response : Type := mkResponse {
  res_status : Z;
  res_body : option JsValue   (* the body read as JSON, [None] if it is not JSON *)
}.

(** [res.ok]: the status is in the range 200-299. *)
Definition res_ok (res : Response) : bool :=
  (200 <=? res_status res) && (res_status res <=? 299).

(** How the promise of [fetch(url)] settles. *)
Inductive FetchOutcome : Type :=
| Rejected                     (* network failure *)
| Resolved (res : Response).

(** [await fetch(url)] once the request has settled as [o]. *)
Definition await (o : FetchOutcome) : M Response :=
  match o with
  | Rejected => throw NetworkError
  | Resolved res => ret res
  end.

(** [await res.json()] *)
Definition res_json (res : Response) : M JsValue :=
  match res_body res with
  | Some v => ret v
  | None => throw SyntaxError
  end.

(** ** Device names *)

(** [a || b] where the operands are property reads that may throw; [b] is
    read only when [a] is falsy. *)
Definition or_else (a b : Completion JsValue) : Completion JsValue :=
  match a with
  | Normal x => if truthy x then Normal x else b
  | Throw e => Throw e
  end.

(** [(d) => d.device_name || d.device || d.deviceName] *)
Definition deviceNameOf (d : JsValue) : Completion JsValue :=
  or_else (or_else (getProp d "device_name") (getProp d "device"))
          (getProp d "deviceName").

(** [items.map(f)] for a callback that may throw. *)
Fixpoint map_throwing (f : JsValue -> Completion JsValue) (items : list JsValue)
  : Completion (list JsValue) :=
  match items with
  | [] => Normal []
  | d :: rest =>
      match f d with
      | Throw e => Throw e
      | Normal x =>
          match map_throwing f rest with
          | Throw e => Throw e
          | Normal xs => Normal (x :: xs)
          end
      end
  end.

(** [data?.map((d) => ...) || []]: [undefined] on a nullish [data], hence
    the empty array; the mapped array on an array (an array is truthy); on any
    other value [data.map] is not a function. *)
Definition deviceNamesOf (data : JsValue) : Completion (list JsValue) :=
  match data with
  | JUndefined | JNull => Normal []
  | JArray items => map_throwing deviceNameOf items
  | _ => Throw TypeError
  end.

(** ** The loaders *)

(** [fetchDeviceData(deviceName, limitValue, showLoading)] up to its [await].
    The [try] block opens before the URL is built; nothing throws between its
    opening and the [await] ([encodeURIComponent] throws on a lone surrogate
    only, which no device name holds), so the block is modelled on the
    continuation. The template of the status, before the block, is evaluated
    on a name that converts to a string: the string of a rendered option, the
    selected device of a state that was rendered (the heading interpolates
    it), or the first name behind the template of [fetchDevices]. *)
Definition fetchDeviceData (deviceName : JsValue) (limitValue : JsNumber)
    (showLoading : bool) : M unit :=
  emit (Call_fetchDeviceData deviceName limitValue showLoading) ;;
  if negb (truthy deviceName) then
    setStatus [Lit "Please select a device."]
  else
    when showLoading (setLoading true) ;;
    setError EmptyString ;;
    setStatus [Lit "Loading data for "; Interp deviceName; Lit "…"] ;;
    emit (Fetch (AwaitData deviceName limitValue showLoading)).

(** [fetchDeviceData] from the moment its request settles as [o]. *)
Definition fetchDeviceData_resume (deviceName : JsValue) (showLoading : bool)
    (o : FetchOutcome) : M unit :=
  try_finally
    (try_catch
       (res <- await o ;;
        when (negb (res_ok res)) (throw (HttpError (res_status res))) ;;
        json <- res_json res ;;
        data <- lift (getProp json "data") ;;
        setRows (js_or data (JArray [])) ;;
        count <- lift (getProp json "count") ;;
        text <- interpolate [Lit "Loaded "; Interp (js_or count (JNumber (num_of_Z 0)));
                             Lit " rows for "; Interp deviceName; Lit "."] ;;
        setStatus text)
       (fun err =>
          emit (ConsoleError err) ;;
          setError "Failed to load data. Check API / database." ;;
          setStatus [Lit "Error loading data."]))
    (when showLoading (setLoading false)).

(** [fetchDevices()] up to its [await]. Its closure holds the [limit] of the
    render that called it. *)
Definition fetchDevices : M unit :=
  limit <- read limit ;;
  setStatus [Lit "Loading devices…"] ;;
  setError EmptyString ;;
  emit (Fetch (AwaitDevices limit)).

(** [fetchDevices] from the moment its request settles as [o]. *)
Definition fetchDevices_resume (limit : JsNumber) (o : FetchOutcome) : M unit :=
  try_catch
    (res <- await o ;;
     when (negb (res_ok res)) (throw (HttpError (res_status res))) ;;
     data <- res_json res ;;
     deviceNames <- lift (deviceNamesOf data) ;;
     setDevices deviceNames ;;
     if (length deviceNames =? 0)%nat then
       setSelectedDevice (JString EmptyString) ;;
       setStatus [Lit "No devices found in database."]
     else
       let first := nth 0 deviceNames JUndefined in
       setSelectedDevice first ;;
       text <- interpolate [Lit "Devices loaded. Selected: "; Interp first] ;;
       setStatus text ;;
       fetchDeviceData first limit true)
    (fun err =>
       emit (ConsoleError err) ;;
       setError "Failed to load devices. Check API server or CORS." ;;
       setStatus [Lit "Error loading devices."]).

(** ** The event handlers *)

(** [handleDeviceChange(e)] with [e.target.value = value]. *)
Definition handleDeviceChange (value : string) : M unit :=
  limit <- read limit ;;
  let deviceName := JString value in
  setSelectedDevice deviceName ;;
  if truthy deviceName then fetchDeviceData deviceName limit true
  else setRows (JArray []).

(** [handleRefreshClick()] *)
Definition handleRefreshClick : M unit :=
  selectedDevice <- read selectedDevice ;;
  limit <- read limit ;;
  if negb (truthy selectedDevice) then ret tt
  else fetchDeviceData selectedDevice limit true.

(** [Math.max(1, Math.min(500, n || 1))] for [n = Number(e.target.value)]. *)
Definition clampLimit (n : JsNumber) : JsNumber :=
  Math_max (num_of_Z 1)
    (Math_min (num_of_Z 500) (if num_truthy n then n else num_of_Z 1)).

(** The [onChange] of the limit input with [e.target.value = value]. *)
Definition limitInput_onChange (value : string) : M unit :=
  setLimit (clampLimit (Number value)).

(** The callback of [setInterval]: the auto-refresh tick. The effect is set
    up again whenever [selectedDevice], [limit] or [loading] change, so the
    callback reads their current values. *)
Definition autoRefresh_tick : M unit :=
  selectedDevice <- read selectedDevice ;;
  limit <- read limit ;;
  loading <- read loading ;;
  if truthy selectedDevice && negb loading
  then fetchDeviceData selectedDevice limit false
  else ret tt.

(** ** The running component *)

(** The requests a handler issued, in order. *)
Fixpoint requests (effs : list Effect) : list Pending :=
  match effs with
  | Fetch p :: rest => p :: requests rest
  | _ :: rest => requests rest
  | [] => []
  end.

(** The calls of [fetchDeviceData] a handler made, in order. *)
Fixpoint calls (effs : list Effect) : list Effect :=
  match effs with
  | Call_fetchDeviceData d l sl :: rest => Call_fetchDeviceData d l sl :: calls rest
  | _ :: rest => calls rest
  | [] => []
  end.


(** Did a [catch] block run? Both of them start with [console.error(err)]. *)
Fixpoint caught (effs : list Effect) : bool :=
  match effs with
  | ConsoleError _ :: _ => true
  | _ :: rest => caught rest
  | [] => false
  end.

(** The record of a settled request: its sequence number, whether its
    continuation ended in the [catch] block, and how many requests had been
    issued by then. *)
Record Settled : Type := mkSettled {
  sid : nat;
  sfailed : bool;
  sstarted : nat
}.

Record World : Type := mkWorld {
  ui : State;                        (* the state cells *)
  inflight : list (nat * Pending);   (* requests not settled yet, numbered *)
  started : nat;                     (* how many requests were issued so far *)
  settled : list Settled             (* the settled ones, latest first *)
}.

Fixpoint number (n : nat) (ps : list Pending) : list (nat * Pending) :=
  match ps with
  | p :: rest => (n, p) :: number (S n) rest
  | [] => []
  end.

(** Run a handler: its writes reach the state cells, its requests take flight. *)
Definition dispatch (m : M unit) (w : World) : World :=
  let ps := requests (effects m (ui w)) in
  {| ui := final m (ui w);
     inflight := inflight w ++ number (started w) ps;
     started := (started w + length ps)%nat;
     settled := settled w |}.

(** Take request [id] out of the list. *)
Fixpoint extract (id : nat) (l : list (nat * Pending))
  : option (Pending * list (nat * Pending)) :=
  match l with
  | (i, p) :: rest =>
      if (i =? id)%nat then Some (p, rest)
      else match extract id rest with
           | Some (q, rest') => Some (q, (i, p) :: rest')
           | None => None
           end
  | [] => None
  end.

(** The continuation of a request in flight. *)
Definition resume (p : Pending) (o : FetchOutcome) : M unit :=
  match p with
  | AwaitDevices limit => fetchDevices_resume limit o
  | AwaitData deviceName _ showLoading => fetchDeviceData_resume deviceName showLoading o
  end.

Inductive Event : Type :=
| DeviceChange (value : string)   (* the select fires [onChange] *)
| LimitChange (value : string)    (* the limit input fires [onChange] *)
| RefreshClick                    (* the button fires [onClick] *)
| Tick                            (* the interval fires *)
| Settle (id : nat) (o : FetchOutcome).  (* request [id] settles *)

(** [disabled={loading || !selectedDevice}] of the refresh button. *)
Definition refreshDisabled (s : State) : bool :=
  loading s || negb (truthy (selectedDevice s)).

(** One event. [None] when it cannot happen: a click on the disabled button,
    a request that is not in flight. The select is taken to offer any string,
    which covers the options the component renders. The writes of a handler
    are absolute values, so they reach the cells in the order they were made;
    a render is committed between two events, so a handler set up by a render
    (the interval callback, the click and change handlers) reads the current
    cells. *)
Definition step (w : World) (ev : Event) : option World :=
  match ev with
  | DeviceChange value => Some (dispatch (handleDeviceChange value) w)
  | LimitChange value => Some (dispatch (limitInput_onChange value) w)
  | RefreshClick =>
      if refreshDisabled (ui w) then None else Some (dispatch handleRefreshClick w)
  | Tick => Some (dispatch autoRefresh_tick w)
  | Settle id o =>
      match extract id (inflight w) with
      | None => None
      | Some (p, rest) =>
          let w' := dispatch (resume p o)
                      (mkWorld (ui w) rest (started w) (settled w)) in
          Some (mkWorld (ui w') (inflight w') (started w')
                  (mkSettled id (caught (effects (resume p o) (ui w))) (started w)
                   :: settled w))
      end
  end.

(** The component after its first render: the mount effect has called
    [fetchDevices()]. *)
Definition mounted : World :=
  dispatch fetchDevices (mkWorld initialState [] 0 []).

Fixpoint run (w : World) (evs : list Event) : option World :=
  match evs with
  | [] => Some w
  | ev :: rest =>
      match step w ev with
      | Some w' => run w' rest
      | None => None
      end
  end.

Inductive reachable : World -> Prop :=
| reach_mounted : reachable mounted
| reach_step w ev w' : reachable w -> step w ev = Some w' -> reachable w'.

(** The row limit is a number between 1 and 500. *)
Definition limit_in_range (n : JsNumber) : Prop :=
  match n with
  | Finite q => (1 <= q /\ q <= 500)%Q
  | _ => False
  end.

(** The three failures of a request the specification names: the network
    fails, the status is not 2xx, the body is not JSON. *)
Definition failing (o : FetchOutcome) : Prop :=
  match o with
  | Rejected => True
  | Resolved res => res_ok res = false \/ res_body res = None
  end.



(** ** [JSON.parse] *)

Definition dquote : ascii := "034"%char.
Definition backslash : ascii := "092"%char.
Definition newline : ascii := "010"%char.

(** JSON white space: tab, LF, CR, space. *)
Definition is_json_space (c : ascii) : bool :=
  let n := nat_of_ascii c in
  (n =? 9)%nat || (n =? 10)%nat || (n =? 13)%nat || (n =? 32)%nat.

Fixpoint drop_json_spaces (cs : list ascii) : list ascii :=
  match cs with
  | c :: cs' => if is_json_space c then drop_json_spaces cs' else cs
  | [] => []
  end.

(** The UTF-8 bytes of a code point; a surrogate takes the three bytes of
    its value. *)
Definition utf8 (cp : Z) : list ascii :=
  let byte z := ascii_of_nat (Z.to_nat z) in
  if cp <? 128 then [byte cp]
  else if cp <? 2048 then [byte (192 + cp / 64); byte (128 + cp mod 64)]
  else if cp <? 65536 then
    [byte (224 + cp / 4096); byte (128 + (cp / 64) mod 64); byte (128 + cp mod 64)]
  else
    [byte (240 + cp / 262144); byte (128 + (cp / 4096) mod 64);
     byte (128 + (cp / 64) mod 64); byte (128 + cp mod 64)].

Definition is_high_surrogate (cp : Z) : bool := (55296 <=? cp) && (cp <=? 56319).
Definition is_low_surrogate (cp : Z) : bool := (56320 <=? cp) && (cp <=? 57343).

(** The code point of a surrogate held in the three bytes [b1 b2 b3]. *)
Definition lone_surrogate (b1 b2 b3 : ascii) : option Z :=
  let n1 := Z.of_nat (nat_of_ascii b1) in
  let n2 := Z.of_nat (nat_of_ascii b2) in
  let n3 := Z.of_nat (nat_of_ascii b3) in
  if (n1 =? 237) && (160 <=? n2) && (n2 <=? 191) && (128 <=? n3) && (n3 <=? 191)
  then Some (53248 + (n2 - 128) * 64 + (n3 - 128))
  else None.

(** A high surrogate with a low surrogate behind it is one code point,
    however the two were written. *)
Fixpoint merge_surrogates (cs : list ascii) : list ascii :=
  match cs with
  | [] => []
  | a1 :: rest =>
      match rest with
      | a2 :: a3 :: b1 :: b2 :: b3 :: rest' =>
          match lone_surrogate a1 a2 a3, lone_surrogate b1 b2 b3 with
          | Some hi, Some lo =>
              if is_high_surrogate hi && is_low_surrogate lo
              then utf8 (65536 + (hi - 55296) * 1024 + (lo - 56320))
                   ++ merge_surrogates rest'
              else a1 :: merge_surrogates rest
          | _, _ => a1 :: merge_surrogates rest
          end
      | _ => a1 :: merge_surrogates rest
      end
  end.

(** The characters of a string literal after its opening quote, up to the
    closing one; [acc] holds what was read, latest first. *)
Fixpoint parse_string (cs acc : list ascii) : option (string * list ascii) :=
  match cs with
  | [] => None
  | c :: rest =>
      if Ascii.eqb c dquote
      then Some (string_of_list_ascii (merge_surrogates (rev acc)), rest)
      else if Ascii.eqb c backslash then
        match rest with
        | "u"%char :: h1 :: h2 :: h3 :: h4 :: rest' =>
            match radix_value 16 [h1; h2; h3; h4] with
            | Some cp => parse_string rest' (rev (utf8 cp) ++ acc)
            | None => None
            end
        | e :: rest' =>
            let simple (x : ascii) := parse_string rest' (x :: acc) in
            if Ascii.eqb e dquote then simple dquote
            else if Ascii.eqb e backslash then simple backslash
            else if Ascii.eqb e "/" then simple "/"%char
            else if Ascii.eqb e "b" then simple "008"%char
            else if Ascii.eqb e "f" then simple "012"%char
            else if Ascii.eqb e "n" then simple "010"%char
            else if Ascii.eqb e "r" then simple "013"%char
            else if Ascii.eqb e "t" then simple "009"%char
            else None
        | [] => None
        end
      else if (nat_of_ascii c <? 32)%nat then None
      else parse_string rest (c :: acc)
  end.

(** A JSON number: an optional minus, an integer part without leading zero,
    an optional fraction of at least one digit, an optional exponent. *)
Definition parse_number (cs : list ascii) : option (JsNumber * list ascii) :=
  let '(neg, body) :=
    match cs with
    | "-"%char :: r => (true, r)
    | _ => (false, cs)
    end in
  let (ip, rest) := span_digits body in
  let int_ok :=
    match ip with
    | [] => false
    | "0"%char :: _ :: _ => false
    | _ => true
    end in
  if negb int_ok then None
  else
    let frac :=
      match rest with
      | "."%char :: r =>
          match span_digits r with
          | ([], _) => None
          | (fp, r') => Some (fp, r')
          end
      | _ => Some ([], rest)
      end in
    match frac with
    | None => None
    | Some (fp, rest1) =>
        match read_exponent rest1 with
        | None => None
        | Some (e, rest2) =>
            let q := decimal_value ip fp e in
            Some (to_binary64 (if neg : bool then - q else q), rest2)
        end
    end.

(** Is [k] an array index (a canonical numeral below 2^32 - 1)? Such keys are
    enumerated first, in ascending order. *)
Definition array_index (k : string) : option Z :=
  let cs := list_ascii_of_string k in
  match cs with
  | [] => None
  | "0"%char :: _ :: _ => None
  | _ =>
      if forallb is_digit cs && (digits_value cs <? 2 ^ 32 - 1)
      then Some (digits_value cs) else None
  end.

(** Does a new key [k] come before the existing key [k'] in enumeration order? *)
Definition enumerated_before (k k' : string) : bool :=
  match array_index k, array_index k' with
  | Some n, Some n' => n <? n'
  | Some _, None => true
  | None, _ => false
  end.

Fixpoint obj_insert (k : string) (v : JsValue) (props : list (string * JsValue))
  : list (string * JsValue) :=
  match props with
  | [] => [(k, v)]
  | (k', v') :: rest =>
      if enumerated_before k k' then (k, v) :: props
      else (k', v') :: obj_insert k v rest
  end.

Fixpoint obj_replace (k : string) (v : JsValue) (props : list (string * JsValue))
  : list (string * JsValue) :=
  match props with
  | [] => []
  | (k', v') :: rest =>
      if String.eqb k k' then (k', v) :: rest else (k', v') :: obj_replace k v rest
  end.

(** Define property [k] of an object under construction: a repeated key keeps
    its place and takes the new value. *)
Definition obj_set (k : string) (v : JsValue) (props : list (string * JsValue))
  : list (string * JsValue) :=
  match lookup k props with
  | Some _ => obj_replace k v props
  | None => obj_insert k v props
  end.

Definition starts_with (prefix cs : list ascii) : option (list ascii) :=
  if string_dec (string_of_list_ascii (firstn (length prefix) cs))
                (string_of_list_ascii prefix)
  then Some (skipn (length prefix) cs) else None.

(** A value, then the rest of the text. [fuel] bounds the depth of the calls. *)
Fixpoint parse_value (fuel : nat) (cs : list ascii) : option (JsValue * list ascii) :=
  match fuel with
  | O => None
  | S fuel' =>
      match drop_json_spaces cs with
      | "{"%char :: rest =>
          match drop_json_spaces rest with
          | "}"%char :: rest' => Some (JObject [], rest')
          | _ => parse_members fuel' rest []
          end
      | "["%char :: rest =>
          match drop_json_spaces rest with
          | "]"%char :: rest' => Some (JArray [], rest')
          | _ => parse_elements fuel' rest []
          end
      | "034"%char :: rest =>
          match parse_string rest [] with
          | Some (s, rest') => Some (JString s, rest')
          | None => None
          end
      | ("t"%char :: _) as cs' =>
          option_map (fun r => (JBool true, r))
            (starts_with (list_ascii_of_string "true") cs')
      | ("f"%char :: _) as cs' =>
          option_map (fun r => (JBool false, r))
            (starts_with (list_ascii_of_string "false") cs')
      | ("n"%char :: _) as cs' =>
          option_map (fun r => (JNull, r))
            (starts_with (list_ascii_of_string "null") cs')
      | cs' =>
          match parse_number cs' with
          | Some (n, rest) => Some (JNumber n, rest)
          | None => None
          end
      end
  end

(** The members of an object after its brace or a comma; [acc] holds the
    properties defined so far. *)
with parse_members (fuel : nat) (cs : list ascii) (acc : list (string * JsValue))
  : option (JsValue * list ascii) :=
  match fuel with
  | O => None
  | S fuel' =>
      match drop_json_spaces cs with
      | "034"%char :: rest =>
          match parse_string rest [] with
          | Some (k, rest1) =>
              match drop_json_spaces rest1 with
              | ":"%char :: rest2 =>
                  match parse_value fuel' rest2 with
                  | Some (v, rest3) =>
                      match drop_json_spaces rest3 with
                      | ","%char :: rest4 => parse_members fuel' rest4 (obj_set k v acc)
                      | "}"%char :: rest4 => Some (JObject (obj_set k v acc), rest4)
                      | _ => None
                      end
                  | None => None
                  end
              | _ => None
              end
          | None => None
          end
      | _ => None
      end
  end

(** The elements of an array after its bracket or a comma; [acc] holds the
    elements read, latest first. *)
with parse_elements (fuel : nat) (cs : list ascii) (acc : list JsValue)
  : option (JsValue * list ascii) :=
  match fuel with
  | O => None
  | S fuel' =>
      match parse_value fuel' cs with
      | Some (v, rest) =>
          match drop_json_spaces rest with
          | ","%char :: rest' => parse_elements fuel' rest' (v :: acc)
          | "]"%char :: rest' => Some (JArray (rev (v :: acc)), rest')
          | _ => None
          end
      | None => None
      end
  end.

(** [JSON.parse(text)]: one value and nothing but white space after it. *)
Definition JSON_parse (text : string) : Completion JsValue :=
  let cs := list_ascii_of_string text in
  match parse_value (2 * length cs + 2) cs with
  | Some (v, rest) =>
      match drop_json_spaces rest with
      | [] => Normal v
      | _ => Throw SyntaxError
      end
  | None => Throw SyntaxError
  end.

(** ** [JSON.stringify(value, null, 2)] *)

Definition hex_digit (n : Z) : ascii :=
  ascii_of_nat (Z.to_nat (if n <? 10 then 48 + n else 87 + n)).

(** The escape of one character between the quotes of JSON text, if it
    needs one. *)
Definition quote_char (c : ascii) : list ascii :=
  let n := Z.of_nat (nat_of_ascii c) in
  if Ascii.eqb c dquote then [backslash; dquote]
  else if Ascii.eqb c backslash then [backslash; backslash]
  else if n =? 8 then [backslash; "b"%char]
  else if n =? 12 then [backslash; "f"%char]
  else if n =? 10 then [backslash; "n"%char]
  else if n =? 13 then [backslash; "r"%char]
  else if n =? 9 then [backslash; "t"%char]
  else if n <? 32 then
    [backslash; "u"%char; "0"%char; "0"%char; hex_digit (n / 16); hex_digit (n mod 16)]
  else [c].

(** The characters of a string as they stand between the quotes of its JSON
    text; a lone surrogate is written as its escape. *)
Fixpoint quote_chars (cs : list ascii) : list ascii :=
  match cs with
  | [] => []
  | c :: rest =>
      match rest with
      | b2 :: b3 :: rest' =>
          match lone_surrogate c b2 b3 with
          | Some cp =>
              [backslash; "u"%char; hex_digit (cp / 4096); hex_digit ((cp / 256) mod 16);
               hex_digit ((cp / 16) mod 16); hex_digit (cp mod 16)]
              ++ quote_chars rest'
          | None => quote_char c ++ quote_chars rest
          end
      | _ => quote_char c ++ quote_chars rest
      end
  end.

Definition quote (s : string) : string :=
  string_of_list_ascii (dquote :: quote_chars (list_ascii_of_string s) ++ [dquote]).

(** The text of a number inside JSON text: [null] for NaN and the
    infinities, the decimal numeral for an integer up to 2^53 in magnitude;
    the conversion of any other number is left to the host. *)
Definition number_piece (n : JsNumber) : Piece :=
  match n with
  | Finite q =>
      let r := Qred q in
      if (Z.pos (Qden r) =? 1) && (Z.abs (Qnum r) <=? 2 ^ 53)
      then Lit (DecimalString.NilZero.string_of_int (Z.to_int (Qnum r)))
      else Interp (JNumber n)
  | _ => Lit "null"
  end.

Fixpoint join (sep : Template) (parts : list Template) : Template :=
  match parts with
  | [] => []
  | [p] => p
  | p :: rest => p ++ sep ++ join sep rest
  end.

Definition nl : string := String newline EmptyString.

(** SerializeJSONProperty with the gap of two spaces, at indentation
    [indent]; [None] is [undefined]. *)
Fixpoint stringify (indent : string) (v : JsValue) : option Template :=
  let inner := (indent ++ "  ")%string in
  match v with
  | JUndefined => None
  | JNull => Some [Lit "null"]
  | JBool b => Some [Lit (if b then "true" else "false")]
  | JNumber n => Some [number_piece n]
  | JString s => Some [Lit (quote s)]
  | JArray items =>
      let fix each (xs : list JsValue) : list Template :=
        match xs with
        | [] => []
        | x :: rest =>
            match stringify inner x with
            | Some t => t
            | None => [Lit "null"]
            end :: each rest
        end in
      match each items with
      | [] => Some [Lit "[]"]
      | parts =>
          Some ([Lit ("[" ++ nl ++ inner)%string]
                ++ join [Lit ("," ++ nl ++ inner)%string] parts
                ++ [Lit (nl ++ indent ++ "]")%string])
      end
  | JObject props =>
      let fix each (ps : list (string * JsValue)) : list Template :=
        match ps with
        | [] => []
        | (k, x) :: rest =>
            match stringify inner x with
            | Some t => (Lit (quote k ++ ": ")%string :: t) :: each rest
            | None => each rest
            end
        end in
      match each props with
      | [] => Some [Lit "{}"]
      | parts =>
          Some ([Lit ("{" ++ nl ++ inner)%string]
                ++ join [Lit ("," ++ nl ++ inner)%string] parts
                ++ [Lit (nl ++ indent ++ "}")%string])
      end
  end.

Definition JSON_stringify (v : JsValue) : option Template := stringify EmptyString v.

(** The text of a template with no interpolated value left in it. *)
Fixpoint template_text (t : Template) : option string :=
  match t with
  | [] => Some EmptyString
  | Lit s :: rest => option_map (String.append s) (template_text rest)
  | Interp _ :: _ => None
  end.

(** ** Rendering the rows *)

(** The five cells of a table row. *)
Record Cells : Type := mkCells {
  cell_number : JsNumber;     (* [index + 1] *)
  cell_topic : JsValue;       (* [row.topic] *)
  cell_payload : Template;    (* the parsed payload, serialized, or a dash *)
  cell_raw : JsValue;         (* [row.payload_raw || "-"] *)
  cell_timestamp : string     (* the local date and time, or a dash *)
}.

Section Rendering.

(** [new Date(v).toLocaleString()] for a value [v] that converts to a
    primitive: it depends on the locale and the time zone of the browser. *)
Variable Date_toLocaleString : JsValue -> string.

(** [try { if (typeof payloadJson === "string") payloadJson =
    JSON.parse(payloadJson); } catch (e) {}] *)
Definition parsePayload (payloadJson : JsValue) : JsValue :=
  match payloadJson with
  | JString text =>
      match JSON_parse text with
      | Normal v => v
      | Throw _ => payloadJson
      end
  | _ => payloadJson
  end.

(** The callback of [rows.map((row, index) => ...)]. Reading a property of a
    [null] row throws, and so does [new Date(createdAt)] on a value with no
    conversion to a primitive. *)
Definition renderRow (row : JsValue) (index : nat) : Completion Cells :=
  match row with
  | JUndefined | JNull => Throw TypeError
  | _ =>
      let field k := match getProp row k with Normal x => x | Throw _ => JUndefined end in
      let payloadJson := parsePayload (field "payload_json") in
      let createdAt :=
        js_or (js_or (field "timestamp") (field "created_at")) (field "createdAt") in
      if truthy createdAt && negb (printable createdAt) then Throw TypeError else
      Normal {|
        cell_number := num_of_Z (Z.of_nat index + 1);
        cell_topic := field "topic";
        cell_payload :=
          if truthy payloadJson
          then match JSON_stringify payloadJson with Some t => t | None => [] end
          else [Lit "-"];
        cell_raw := js_or (field "payload_raw") (JString "-");
        cell_timestamp :=
          if truthy createdAt then Date_toLocaleString createdAt else "-"
      |}
  end.

Fixpoint renderFrom (index : nat) (items : list JsValue) : Completion (list Cells) :=
  match items with
  | [] => Normal []
  | row :: rest =>
      match renderRow row index with
      | Throw e => Throw e
      | Normal c =>
          match renderFrom (S index) rest with
          | Throw e => Throw e
          | Normal cs => Normal (c :: cs)
          end
      end
  end.

(** [rows.map(...)]: the table body, the placeholder row apart. *)
Definition renderRows (rows : JsValue) : Completion (list Cells) :=
  match rows with
  | JArray items => renderFrom 0 items
  | _ => Throw TypeError
  end.

(** What React accepts as a child of an element: text, numbers, the values
    that render nothing, and arrays of such; an object is refused. *)
Fixpoint valid_child (v : JsValue) : bool :=
  match v with
  | JObject _ => false
  | JArray items =>
      (fix all (xs : list JsValue) : bool :=
         match xs with
         | [] => true
         | x :: rest => valid_child x && all rest
         end) items
  | _ => true
  end.

(** The children of a row that are values of the reading: [{row.topic}] and
    [{row.payload_raw || "-"}]. *)
Definition cells_valid (c : Cells) : bool :=
  valid_child (cell_topic c) && valid_child (cell_raw c).

(** The rows of the table once React has taken the elements [rows.map]
    returns. *)
Definition tableBody (rows : JsValue) : Completion (list Cells) :=
  match renderRows rows with
  | Throw e => Throw e
  | Normal cells =>
      if forallb cells_valid cells then Normal cells else Throw InvalidChild
  end.

End Rendering.

(** The data response of the round-trip example:
    [{data: [{topic: "t1", payload_json: "{\"a\":1}",
              timestamp: "2024-01-01T00:00:00Z"}], count: 1}]. *)
Definition example_payload_text : string :=
  string_of_list_ascii
    (["{"%char; dquote; "a"%char; dquote; ":"%char; "1"%char; "}"%char]).

Definition example_row : JsValue :=
  JObject [("topic", JString "t1");
           ("payload_json", JString example_payload_text);
           ("timestamp", JString "2024-01-01T00:00:00Z")].

Definition example_response : Response :=
  mkResponse 200
    (Some (JObject [("data", JArray [example_row]);
                    ("count", JNumber (num_of_Z 1))])).

(** The payload cell of the example row: the object [{a: 1}] serialized with
    an indentation of two spaces, in three lines. *)
Definition example_payload_cell : Template :=
  [Lit (String "{" (String newline "  "));
   Lit (String dquote (String "a" (String dquote ": ")));
   Lit "1";
   Lit (String newline "}")].

Definition example_payload_pretty : string :=
  String "{" (String newline
    (String " " (String " " (String dquote (String "a" (String dquote
      (String ":" (String " " (String "1" (String newline "}")))))))))).

(** ** Notions the statements use *)

(** The handler an event of the user or of the timer runs. *)
Definition handler (ev : Event) : option (M unit) :=
  match ev with
  | DeviceChange value => Some (handleDeviceChange value)
  | LimitChange value => Some (limitInput_onChange value)
  | RefreshClick => Some handleRefreshClick
  | Tick => Some autoRefresh_tick
  | Settle _ _ => None
  end.



(** The own property [k] of a record, [undefined] when there is none. *)
Definition own (d : JsValue) (k : string) : JsValue :=
  match d with
  | JObject props => match lookup k props with Some v => v | None => JUndefined end
  | _ => JUndefined
  end.

(** The first truthy one of the three name fields, else the last field. *)
Definition firstTruthyName (d : JsValue) : JsValue :=
  if truthy (own d "device_name") then own d "device_name"
  else if truthy (own d "device") then own d "device"
  else own d "deviceName".

(** The name as the specification words it: the first field present among
    [device_name], [device], [deviceName], otherwise the raw record. *)
Definition deviceName_spec (d : JsValue) : JsValue :=
  match d with
  | JObject props =>
      match lookup "device_name" props, lookup "device" props,
            lookup "deviceName" props with
      | Some v, _, _ => v
      | None, Some v, _ => v
      | None, None, Some v => v
      | None, None, None => d
      end
  | _ => d
  end.

Definition is_nullish (v : JsValue) : bool :=
  match v with
  | JUndefined | JNull => true
  | _ => false
  end.

(** A state with a device list and readings from an earlier load. *)
Definition loaded_state : State := {|
  devices := [JString "sensor-1"];
  selectedDevice := JString "sensor-1";
  limit := num_of_Z 50;
  rows := JArray [example_row];
  status := [Lit "Loaded "; Interp (JNumber (num_of_Z 1)); Lit " rows for ";
             Interp (JString "sensor-1"); Lit "."];
  error := EmptyString;
  loading := false
|}.

Definition ok_response (body : JsValue) : FetchOutcome :=
  Resolved (mkResponse 200 (Some body)).

Definition device_record (name : string) : JsValue :=
  JObject [("device_name", JString name)].

(** Two loads that overlap: the list arrives with two devices and the first
    is loaded (request 1); the user picks the second before that load settles
    (request 2); request 1 fails, then request 2 succeeds. *)
Definition overlapping_loads : list Event :=
  [ Settle 0 (ok_response (JArray [device_record "a"; device_record "b"]));
    DeviceChange "b";
    Settle 1 Rejected;
    Settle 2 (ok_response (JObject [("data", JArray [example_row]);
                                    ("count", JNumber (num_of_Z 1))])) ].

(** ** The request URLs *)





(** [process.env.NEXT_PUBLIC_API_BASE_URL || "http://localhost:3000"]; the
    variable is a string or is not set. *)
Definition API_BASE (env : option string) : string :=
  match env with
  | Some url => if String.eqb url EmptyString then "http://localhost:3000" else url
  | None => "http://localhost:3000"
  end.

(** [`${API_BASE}/devices`] *)
Definition devicesUrl (env : option string) : Template :=
  [Lit (API_BASE env); Lit "/devices"].



(** ** Notions the further properties use *)

(** Does a device-list body make the name list throw? A body that is neither
    nullish nor an array has no [map]; a nullish record has no properties. *)
Definition names_throw (data : JsValue) : bool :=
  match data with
  | JUndefined | JNull => false
  | JArray items => existsb is_nullish items
  | _ => true
  end.

Definition is_array (v : JsValue) : bool :=
  match v with
  | JArray _ => true
  | _ => false
  end.

(** Is it the request of [fetchDevices]? *)
Definition is_devices_request (p : Pending) : bool :=
  match p with
  | AwaitDevices _ => true
  | AwaitData _ _ _ => false
  end.

(** How many device-list requests are in flight. *)
Definition devices_pending (w : World) : nat :=
  length (filter (fun e => is_devices_request (snd e)) (inflight w)).

(** The two texts the [catch] blocks show. *)
Definition devices_error_text : string :=
  "Failed to load devices. Check API server or CORS.".
Definition data_error_text : string :=
  "Failed to load data. Check API / database.".

(** The error message is empty or one of the two fixed texts. *)
Definition known_error (e : string) : Prop :=
  e = EmptyString \/ e = devices_error_text \/ e = data_error_text.

(** The component once a list of two devices has arrived: the first one is
    selected and its readings are requested (request 1). *)
Definition two_devices_world : World :=
  mkWorld
    (mkState [JString "a"; JString "b"] (JString "a") (num_of_Z 50) (JArray [])
       [Lit "Loading data for "; Interp (JString "a"); Lit "…"] EmptyString true)
    [(1%nat, AwaitData (JString "a") (num_of_Z 50) true)] 2
    [mkSettled 0 false 1].


(** The component after [overlapping_loads]. *)
Definition overlapped_world : World :=
  mkWorld
    (mkState [JString "a"; JString "b"] (JString "b") (num_of_Z 50)
       (JArray [example_row])
       [Lit "Loaded "; Interp (JNumber (num_of_Z 1)); Lit " rows for ";
        Interp (JString "b"); Lit "."]
       data_error_text false)
    [] 3
    [mkSettled 2 false 3; mkSettled 1 true 3; mkSettled 0 false 1].


(** ** The select and the runs it allows *)

(** Can the select fire a change with this value? It offers the placeholder
    option, whose value is empty, when the device list is empty, and otherwise
    one option per name and no other; the value of an option is its name when
    the name is a string (the conversion of another name is left to the
    host). *)
Definition selectOffers (s : State) (value : string) : bool :=
  match devices s with
  | [] => String.eqb value EmptyString
  | names =>
      existsb (fun name => match name with
                           | JString n => String.eqb n value
                           | _ => true
                           end) names
  end.

(** One event of the user, of the timer or of the network, the select firing
    only what it offers. *)
Definition ui_step (w : World) (ev : Event) : option World :=
  match ev with
  | DeviceChange value => if selectOffers (ui w) value then step w ev else None
  | _ => step w ev
  end.

Fixpoint ui_run (w : World) (evs : list Event) : option World :=
  match evs with
  | [] => Some w
  | ev :: rest =>
      match ui_step w ev with
      | Some w' => ui_run w' rest
      | None => None
      end
  end.

Inductive ui_reachable : World -> Prop :=
| ui_mounted : ui_reachable mounted
| ui_next w ev w' : ui_reachable w -> ui_step w ev = Some w' -> ui_reachable w'.

(** The component as it is while the device list is awaited: no device, no
    selection, no reading, and nothing in flight but the list request. *)
Definition pristine (w : World) : Prop :=
  devices (ui w) = [] /\
  selectedDevice (ui w) = JString EmptyString /\
  rows (ui w) = JArray [] /\
  forallb (fun e => is_devices_request (snd e)) (inflight w) = true.

(** A device whose name has no conversion to a string. *)
Definition unprintable_name : JsValue := JObject [("toString", JNumber (num_of_Z 1))].

(** The timestamp of a reading: [row.timestamp || row.created_at ||
    row.createdAt]. *)
Definition createdAt_of (row : JsValue) : JsValue :=
  js_or (js_or (own row "timestamp") (own row "created_at")) (own row "createdAt").

(** Does the callback of [rows.map] return for this reading? The reading is
    not [null] and its timestamp, if it has one, converts to a primitive. *)
Definition row_maps (row : JsValue) : bool :=
  negb (is_nullish row)
  && (negb (truthy (createdAt_of row)) || printable (createdAt_of row)).

(** Are the topic and the raw payload of this reading valid children? *)
Definition row_children_valid (row : JsValue) : bool :=
  valid_child (own row "topic")
  && valid_child (js_or (own row "payload_raw") (JString "-")).

(** Does the table show this reading? *)
Definition row_renders (row : JsValue) : bool :=
  row_maps row && row_children_valid row.

(** * Proofs *)

(** ** Running a handler symbolically *)

Ltac unfold_js :=
  unfold final, effects, resume, fetchDevices_resume, fetchDeviceData_resume,
    fetchDevices, handleDeviceChange, handleRefreshClick, limitInput_onChange,
    autoRefresh_tick, fetchDeviceData, try_finally, try_catch, bind, when, await,
    res_json, lift, throw, ret, emit, read, interpolate, setDevices,
    setSelectedDevice, setLimit, setRows, setStatus, setError, setLoading.

(** Split on what a handler branches on: a truthiness test, a conversion to
    a string, a flag, the outcome of a request, the status and the body of a
    response, a property read, the device names. *)
Ltac split_atom :=
  match goal with
  | |- context [truthy ?v] => destruct (truthy v) eqn:?
  | |- context [printable ?v] => destruct (printable v) eqn:?
  | |- context [if ?b then _ else _] => is_var b; destruct b
  | |- context [match ?o with Rejected => _ | Resolved _ => _ end] =>
      is_var o; destruct o
  | |- context [match ?p with AwaitDevices _ => _ | AwaitData _ _ _ => _ end] =>
      is_var p; destruct p
  | |- context [String.eqb ?a ?b] => destruct (String.eqb a b) eqn:?
  | |- context [negb (loading ?s)] => is_var s; destruct (loading s) eqn:?
  | |- context [res_ok ?r] => destruct (res_ok r) eqn:?
  | |- context [res_body ?r] => destruct (res_body r) eqn:?
  | |- context [getProp ?j ?k] => destruct (getProp j k) eqn:?
  | |- context [deviceNamesOf ?d] => destruct (deviceNamesOf d) as [[|? ?]|] eqn:?
  end.

Ltac crunch := unfold_js; cbn; repeat (split_atom; cbn).


(** ** The host model on samples *)

Example Number_samples :
  Number "600" = num_of_Z 600 /\ Number EmptyString = num_of_Z 0 /\
  Number "abc" = NaN /\ Number " 12 " = num_of_Z 12 /\
  Number "2.5" = Finite (5 # 2) /\ Number "-3" = num_of_Z (-3) /\
  Number "1e2" = num_of_Z 100 /\ Number "0x1F" = num_of_Z 31 /\
  Number "-Infinity" = NegInfinity /\ Number "1e" = NaN /\ Number "-0x10" = NaN.
Proof. vm_compute. repeat split. Qed.

Example clampLimit_samples :
  clampLimit (Number "600") = num_of_Z 500 /\
  clampLimit (Number "0") = num_of_Z 1 /\
  clampLimit (Number "-3") = num_of_Z 1 /\
  clampLimit (Number "abc") = num_of_Z 1 /\
  clampLimit (Number EmptyString) = num_of_Z 1 /\
  clampLimit (Number "Infinity") = num_of_Z 500 /\
  clampLimit (Number "75") = num_of_Z 75 /\
  clampLimit (Number "2.5") = Finite (5 # 2).
Proof. vm_compute. repeat split. Qed.

Example JSON_parse_samples :
  JSON_parse "[1, 2.5, -3e2, true, null, {}, [false]]"
    = Normal (JArray [JNumber (num_of_Z 1); JNumber (Finite (5 # 2));
                      JNumber (num_of_Z (-300)); JBool true; JNull; JObject [];
                      JArray [JBool false]]) /\
  JSON_parse "[1,]" = Throw SyntaxError /\
  JSON_parse "01" = Throw SyntaxError /\
  JSON_parse "sensor offline" = Throw SyntaxError /\
  JSON_parse EmptyString = Throw SyntaxError.
Proof. vm_compute. repeat split. Qed.

(** A payload that is not JSON is shown as the string it is. *)
Example parsePayload_raw :
  parsePayload (JString "sensor offline") = JString "sensor offline".
Proof. vm_compute. reflexivity. Qed.

Example mounted_world :
  mounted = mkWorld
              (mkState [] (JString EmptyString) (num_of_Z 50) (JArray [])
                 [Lit "Loading devices…"] EmptyString false)
              [(0%nat, AwaitDevices (num_of_Z 50))] 1 [].
Proof. reflexivity. Qed.

(** ** What each handler does to the flag, the message and the limit *)








Lemma handler_limit ev m s :
  handler ev = Some m ->
  limit (final m s) = limit s \/ exists n, limit (final m s) = clampLimit n.
Proof. destruct ev; simpl; intros [= <-]; crunch; eauto. Qed.

Lemma resume_limit p o s : limit (final (resume p o) s) = limit s.
Proof. crunch; reflexivity. Qed.


(** ** One step of the component *)

Lemma step_handler w ev w' m :
  handler ev = Some m -> step w ev = Some w' -> w' = dispatch m w.
Proof.
  destruct ev; simpl; intros [= <-]; try (intros [= <-]; reflexivity).
  destruct (refreshDisabled (ui w)); intros [= <-]; reflexivity.
Qed.

Lemma step_settle w id o w' :
  step w (Settle id o) = Some w' ->
  exists p rest,
    extract id (inflight w) = Some (p, rest) /\
    ui w' = final (resume p o) (ui w) /\
    inflight w' = rest ++ number (started w) (requests (effects (resume p o) (ui w))) /\
    started w' = (started w + length (requests (effects (resume p o) (ui w))))%nat /\
    settled w' = mkSettled id (caught (effects (resume p o) (ui w))) (started w)
                 :: settled w.
Proof.
  simpl. destruct (extract id (inflight w)) as [[p rest]|]; [|discriminate].
  intros [= <-]. exists p, rest. repeat split.
Qed.




(** ** The clamp of the limit *)

Lemma clampLimit_in_range n : limit_in_range (clampLimit n).
Proof.
  unfold clampLimit, Math_max, Math_min, num_leb, num_truthy, num_of_Z.
  destruct n as [| |q|]; simpl; try (split; discriminate).
  destruct (Qeq_bool q 0); simpl; [split; discriminate|].
  destruct (Qle_bool (inject_Z 500) q) eqn:H500; simpl; [split; discriminate|].
  destruct (Qle_bool (inject_Z 1) q) eqn:H1; simpl; [|split; discriminate].
  apply Qle_bool_iff in H1. split; [exact H1|].
  destruct (Qlt_le_dec q (inject_Z 500)) as [Hlt|Hge].
  - apply Qlt_le_weak, Hlt.
  - apply Qle_bool_iff in Hge. congruence.
Qed.

Lemma clampLimit_above q : (500 < q)%Q -> clampLimit (Finite q) = num_of_Z 500.
Proof.
  intros Hq. unfold clampLimit, Math_max, Math_min, num_leb, num_truthy, num_of_Z.
  assert (Hnz : Qeq_bool q 0 = false).
  { destruct (Qeq_bool q 0) eqn:E; [|reflexivity].
    apply Qeq_bool_iff in E. rewrite E in Hq. discriminate Hq. }
  rewrite Hnz. simpl.
  assert (H500 : Qle_bool (inject_Z 500) q = true)
    by (apply Qle_bool_iff, Qlt_le_weak, Hq).
  rewrite H500. reflexivity.
Qed.

Lemma clampLimit_below q : (q < 1)%Q -> clampLimit (Finite q) = num_of_Z 1.
Proof.
  intros Hq. unfold clampLimit, Math_max, Math_min, num_leb, num_truthy, num_of_Z.
  destruct (Qeq_bool q 0); simpl; [reflexivity|].
  assert (H1 : Qle_bool (inject_Z 1) q = false).
  { destruct (Qle_bool (inject_Z 1) q) eqn:E; [|reflexivity].
    apply Qle_bool_iff in E. exfalso. exact (Qlt_not_le _ _ Hq E). }
  assert (H500 : Qle_bool (inject_Z 500) q = false).
  { destruct (Qle_bool (inject_Z 500) q) eqn:E; [|reflexivity].
    apply Qle_bool_iff in E. exfalso. apply (Qlt_not_le _ _ Hq).
    apply Qle_trans with (inject_Z 500); [discriminate|exact E]. }
  rewrite H500, H1. reflexivity.
Qed.

Lemma clampLimit_inside q :
  (1 <= q)%Q -> (q < 500)%Q -> clampLimit (Finite q) = Finite q.
Proof.
  intros H1 H500. unfold clampLimit, Math_max, Math_min, num_leb, num_truthy, num_of_Z.
  assert (Hnz : Qeq_bool q 0 = false).
  { destruct (Qeq_bool q 0) eqn:E; [|reflexivity].
    apply Qeq_bool_iff in E. rewrite E in H1. exfalso. apply H1. reflexivity. }
  rewrite Hnz. simpl.
  assert (E500 : Qle_bool (inject_Z 500) q = false).
  { destruct (Qle_bool (inject_Z 500) q) eqn:E; [|reflexivity].
    apply Qle_bool_iff in E. exfalso. exact (Qlt_not_le _ _ H500 E). }
  assert (E1 : Qle_bool (inject_Z 1) q = true) by (apply Qle_bool_iff; exact H1).
  rewrite E500, E1. reflexivity.
Qed.

(** ** Invariants of the running component *)

Lemma reachable_limit w : reachable w -> limit_in_range (limit (ui w)).
Proof.
  induction 1 as [|w ev w' Hw IH Hstep].
  - simpl. split; discriminate.
  - destruct (handler ev) as [m|] eqn:Hh.
    + rewrite (step_handler _ _ _ _ Hh Hstep). simpl.
      destruct (handler_limit ev m (ui w) Hh) as [->|[n ->]];
        auto using clampLimit_in_range.
    + destruct ev; try discriminate.
      destruct (step_settle _ _ _ _ Hstep) as (p & rest & _ & -> & _).
      rewrite resume_limit. exact IH.
Qed.



(** ** The host on samples *)

(** An escaped surrogate pair is one character of four bytes, and is written
    back as that character. *)
Example JSON_parse_surrogate_pair :
  JSON_parse (String dquote ("\ud83d\ude00" ++ String dquote EmptyString))
  = Normal (JString (string_of_list_ascii
                       (map ascii_of_nat [240; 159; 152; 128]%nat))) /\
  JSON_parse (String dquote ("\ud83d" ++ String dquote EmptyString))
  = Normal (JString (string_of_list_ascii (map ascii_of_nat [237; 160; 189]%nat))) /\
  quote (string_of_list_ascii (map ascii_of_nat [237; 160; 189]%nat))
  = String dquote ("\ud83d" ++ String dquote EmptyString).
Proof. split; [|split]; vm_compute; reflexivity. Qed.

(** Numerals are rounded to binary64: 0.1 is not one tenth, and 2^53 + 1 is
    2^53. *)
Example numerals_are_rounded :
  JSON_parse "0.1" = Normal (JNumber (Finite (3602879701896397 # 36028797018963968))) /\
  Number "9007199254740993" = Finite (inject_Z 9007199254740992) /\
  JSON_parse "1e400" = Normal (JNumber PosInfinity).
Proof. split; [|split]; vm_compute; reflexivity. Qed.

(** An object with a property [toString] has no conversion to a string; an
    object without has. *)
Example printable_samples :
  printable unprintable_name = false /\
  printable (JObject [("valueOf", JNumber (num_of_Z 1))]) = true /\
  printable (JArray [JString "a"; unprintable_name]) = false /\
  printable (JArray [JNull; JArray [JNumber (num_of_Z 1)]]) = true.
Proof. repeat split. Qed.

(** * The claims *)

(** ** The list request of the mount *)

Lemma handler_no_devices_request ev m s :
  handler ev = Some m -> filter is_devices_request (requests (effects m s)) = [].
Proof. destruct ev; simpl; intros [= <-]; crunch; reflexivity. Qed.

Lemma resume_no_devices_request p o s :
  filter is_devices_request (requests (effects (resume p o) s)) = [].
Proof. crunch; reflexivity. Qed.

Lemma filter_number ps : forall n,
  length (filter (fun e => is_devices_request (snd e)) (number n ps))
  = length (filter is_devices_request ps).
Proof.
  induction ps as [|p ps IH]; intros n; [reflexivity|].
  simpl. destruct (is_devices_request p); simpl; rewrite IH; reflexivity.
Qed.

Lemma extract_filter id l p rest :
  extract id l = Some (p, rest) ->
  length (filter (fun e => is_devices_request (snd e)) l)
  = ((if is_devices_request p then 1 else 0)
     + length (filter (fun e => is_devices_request (snd e)) rest))%nat.
Proof.
  revert rest. induction l as [|[i q] l IH]; intros rest; [discriminate|].
  cbn [extract filter snd].
  destruct (Nat.eqb_spec i id) as [->|Hne].
  - intros [= <- <-]. destruct (is_devices_request q); reflexivity.
  - destruct (extract id l) as [[q' rest']|]; [|discriminate].
    intros [= <- <-]. cbn [filter snd]. specialize (IH _ eq_refl).
    destruct (is_devices_request q), (is_devices_request q');
      cbn [length] in *; lia.
Qed.

Lemma extract_member id l p rest : extract id l = Some (p, rest) -> In (id, p) l.
Proof.
  revert rest. induction l as [|[i q] l IH]; intros rest; [discriminate|].
  cbn [extract]. destruct (Nat.eqb_spec i id) as [->|Hne].
  - intros [= <- <-]. left; reflexivity.
  - destruct (extract id l) as [[q' rest']|]; [|discriminate].
    intros [= <- <-]. right. exact (IH _ eq_refl).
Qed.

Lemma step_devices_pending w ev w' :
  step w ev = Some w' -> (devices_pending w' <= devices_pending w)%nat.
Proof.
  unfold devices_pending. intros Hstep. destruct (handler ev) as [m|] eqn:Hh.
  - rewrite (step_handler _ _ _ _ Hh Hstep). simpl.
    rewrite filter_app, length_app, filter_number,
      (handler_no_devices_request ev m (ui w) Hh). simpl. lia.
  - destruct ev; try discriminate.
    destruct (step_settle _ _ _ _ Hstep) as (p & rest & Hex & _ & -> & _).
    rewrite filter_app, length_app, filter_number, resume_no_devices_request.
    rewrite (extract_filter _ _ _ _ Hex). simpl. lia.
Qed.

Lemma reachable_devices_pending w : reachable w -> (devices_pending w <= 1)%nat.
Proof.
  induction 1 as [|w ev w' Hw IH Hstep]; [apply Nat.le_refl|].
  pose proof (step_devices_pending w ev w' Hstep). lia.
Qed.

Lemma ui_step_step w ev w' : ui_step w ev = Some w' -> step w ev = Some w'.
Proof.
  destruct ev; try (intros H; exact H).
  unfold ui_step. destruct (selectOffers (ui w) value); [intros H; exact H|discriminate].
Qed.

Lemma ui_reachable_reachable w : ui_reachable w -> reachable w.
Proof.
  induction 1 as [|w ev w' _ IH Hstep]; [exact reach_mounted|].
  exact (reach_step w ev w' IH (ui_step_step w ev w' Hstep)).
Qed.

Lemma ui_run_reachable evs : forall w w',
  ui_reachable w -> ui_run w evs = Some w' -> ui_reachable w'.
Proof.
  induction evs as [|ev evs IH]; simpl; intros w w' Hw.
  - intros [= <-]. exact Hw.
  - destruct (ui_step w ev) as [w1|] eqn:Hstep; [|discriminate].
    apply IH. exact (ui_next w ev w1 Hw Hstep).
Qed.

Lemma tick_without_device s :
  truthy (selectedDevice s) = false -> autoRefresh_tick s = (Normal tt, s, []).
Proof. intros H. unfold_js. cbn. rewrite H. reflexivity. Qed.

(** While the list request is in flight the component is as the mount left
    it, the limit apart: the select offers the placeholder only, the button is
    disabled and the tick finds no device. *)
Lemma ui_pristine w : ui_reachable w -> devices_pending w = 1%nat -> pristine w.
Proof.
  induction 1 as [|w ev w' Hw IH Hstep]; [intros _; repeat split|].
  intros Hp'.
  pose proof (ui_step_step _ _ _ Hstep) as Hs.
  pose proof (step_devices_pending w ev w' Hs) as Hle.
  pose proof (reachable_devices_pending w (ui_reachable_reachable w Hw)) as Hle1.
  assert (Hp : devices_pending w = 1%nat) by lia.
  destruct (IH Hp) as (Hdev & Hsel & Hrows & Hall).
  destruct ev as [value|value| | |id o].
  - unfold ui_step, selectOffers in Hstep. rewrite Hdev in Hstep.
    destruct (String.eqb_spec value EmptyString) as [->|Hne]; [|discriminate].
    injection Hstep as <-. unfold pristine, dispatch. cbn.
    rewrite app_nil_r. repeat split; assumption.
  - injection Hs as <-. unfold pristine, dispatch. cbn.
    rewrite app_nil_r. repeat split; assumption.
  - simpl in Hs. unfold refreshDisabled in Hs. rewrite Hsel in Hs. cbn in Hs.
    rewrite orb_true_r in Hs. discriminate.
  - injection Hs as <-. unfold pristine, dispatch, final, effects.
    rewrite tick_without_device by (rewrite Hsel; reflexivity). cbn.
    rewrite app_nil_r. repeat split; assumption.
  - exfalso.
    destruct (step_settle _ _ _ _ Hs) as (p & rest & Hex & _ & Hfl & _).
    pose proof (extract_member _ _ _ _ Hex) as Hin.
    rewrite forallb_forall in Hall. specialize (Hall _ Hin). cbn in Hall.
    unfold devices_pending in Hp, Hp'.
    rewrite (extract_filter _ _ _ _ Hex), Hall in Hp.
    rewrite Hfl, filter_app, length_app, filter_number, resume_no_devices_request in Hp'.
    simpl in Hp'. lia.
Qed.

Lemma awaited_list_pristine w id limit0 rest :
  ui_reachable w -> extract id (inflight w) = Some (AwaitDevices limit0, rest) ->
  pristine w.
Proof.
  intros Hw Hex. apply (ui_pristine w Hw).
  pose proof (reachable_devices_pending w (ui_reachable_reachable w Hw)) as Hle.
  unfold devices_pending in *. rewrite (extract_filter _ _ _ _ Hex) in *.
  simpl in *. lia.
Qed.

Lemma settle_awaited_list w w' id limit0 rest o :
  extract id (inflight w) = Some (AwaitDevices limit0, rest) ->
  step w (Settle id o) = Some w' ->
  ui w' = final (fetchDevices_resume limit0 o) (ui w) /\
  inflight w' = rest ++ number (started w)
                          (requests (effects (fetchDevices_resume limit0 o) (ui w))) /\
  started w' = (started w
                + length (requests (effects (fetchDevices_resume limit0 o) (ui w))))%nat.
Proof.
  intros Hex Hstep.
  destruct (step_settle _ _ _ _ Hstep) as (p & rest' & Hex' & Hui & Hfl & Hst & _).
  rewrite Hex in Hex'. injection Hex' as <- <-. repeat split; assumption.
Qed.

(** What the continuation of [fetchDevices] does with an empty array. *)
Lemma fetchDevices_resume_empty limit0 res s :
  res_ok res = true ->
  res_body res = Some (JArray []) ->
  fetchDevices_resume limit0 (Resolved res) s
  = (Normal tt,
     mkState [] (JString EmptyString) (limit s) (rows s)
       [Lit "No devices found in database."] (error s) (loading s),
     [SetDevices []; SetSelectedDevice (JString EmptyString);
      SetStatus [Lit "No devices found in database."]]).
Proof.
  intros Hok Hbody. unfold_js. cbn. rewrite Hok. cbn. rewrite Hbody. reflexivity.
Qed.

(** What it does with a failed request. *)
Lemma fetchDevices_resume_failing limit0 o s :
  failing o ->
  exists e,
    fetchDevices_resume limit0 o s
    = (Normal tt,
       mkState (devices s) (selectedDevice s) (limit s) (rows s)
         [Lit "Error loading devices."]
         "Failed to load devices. Check API server or CORS." (loading s),
       [ConsoleError e; SetError "Failed to load devices. Check API server or CORS.";
        SetStatus [Lit "Error loading devices."]]).
Proof.
  intros Hfail. destruct o as [|res]; simpl in Hfail.
  - exists NetworkError. reflexivity.
  - destruct Hfail as [Hok|Hbody].
    + exists (HttpError (res_status res)). unfold_js. cbn. rewrite Hok. reflexivity.
    + destruct (res_ok res) eqn:Hok.
      * exists SyntaxError. unfold_js. cbn. rewrite Hok. cbn. rewrite Hbody. reflexivity.
      * exists (HttpError (res_status res)). unfold_js. cbn. rewrite Hok. reflexivity.
Qed.

(** ** C1: an empty device list *)

(** C1: in every run of the component, when the list request of the mount
    settles with a 2xx response whose body is an empty array, the list-devices
    operation leaves the selected device empty (it writes the empty string),
    the device list and the reading list empty, and the status "No devices
    found in database."; it calls [fetchDeviceData] not at all and issues no
    request. *)
Theorem list_devices_empty_response (w w' : World) (id : nat) (limit0 : JsNumber)
    (rest : list (nat * Pending)) (res : Response) :
  ui_reachable w ->
  extract id (inflight w) = Some (AwaitDevices limit0, rest) ->
  res_ok res = true ->
  res_body res = Some (JArray []) ->
  step w (Settle id (Resolved res)) = Some w' ->
  selectedDevice (ui w') = JString EmptyString /\
  In (SetSelectedDevice (JString EmptyString))
     (effects (fetchDevices_resume limit0 (Resolved res)) (ui w)) /\
  rows (ui w') = JArray [] /\
  devices (ui w') = [] /\
  status (ui w') = [Lit "No devices found in database."] /\
  calls (effects (fetchDevices_resume limit0 (Resolved res)) (ui w)) = [] /\
  requests (effects (fetchDevices_resume limit0 (Resolved res)) (ui w)) = [] /\
  inflight w' = rest /\
  started w' = started w.
Proof.
  intros Hw Hex Hok Hbody Hstep.
  destruct (awaited_list_pristine w id limit0 rest Hw Hex) as (_ & _ & Hrows & _).
  destruct (settle_awaited_list w w' id limit0 rest _ Hex Hstep) as (Hui & Hfl & Hst).
  rewrite Hui, Hfl, Hst. unfold final, effects.
  rewrite (fetchDevices_resume_empty limit0 res (ui w) Hok Hbody). cbn.
  rewrite app_nil_r, Nat.add_0_r. repeat split; auto.
Qed.

Lemma list_devices_empty_response_witness :
  ui_reachable mounted /\
  extract 0 (inflight mounted) = Some (AwaitDevices (num_of_Z 50), []) /\
  step mounted (Settle 0 (ok_response (JArray [])))
    = Some (mkWorld
              (mkState [] (JString EmptyString) (num_of_Z 50) (JArray [])
                 [Lit "No devices found in database."] EmptyString false)
              [] 1 [mkSettled 0 false 1]) /\
  rows (mkState [] (JString EmptyString) (num_of_Z 50) (JArray [])
          [Lit "No devices found in database."] EmptyString false) = JArray [].
Proof.
  split; [exact ui_mounted|]. split; [reflexivity|]. split; [reflexivity|].
  exact (proj1 (proj2 (proj2
           (list_devices_empty_response mounted _ 0 (num_of_Z 50) []
              (mkResponse 200 (Some (JArray []))) ui_mounted eq_refl eq_refl eq_refl
              eq_refl)))).
Defined.

(** ** C2: a failed device-list request *)

(** C2: in every run of the component, when the list request of the mount
    fails (network error, non-2xx response, body that is not JSON), the
    list-devices operation leaves the device list empty and the reading list
    empty, sets the error message to a non-empty text and the status to "Error
    loading devices."; it issues no request, so the load is not retried. *)
Theorem list_devices_failure (w w' : World) (id : nat) (limit0 : JsNumber)
    (rest : list (nat * Pending)) (o : FetchOutcome) :
  ui_reachable w ->
  extract id (inflight w) = Some (AwaitDevices limit0, rest) ->
  failing o ->
  step w (Settle id o) = Some w' ->
  devices (ui w') = [] /\
  rows (ui w') = JArray [] /\
  error (ui w') = "Failed to load devices. Check API server or CORS." /\
  error (ui w') <> EmptyString /\
  status (ui w') = [Lit "Error loading devices."] /\
  requests (effects (fetchDevices_resume limit0 o) (ui w)) = [] /\
  inflight w' = rest /\
  started w' = started w.
Proof.
  intros Hw Hex Hfail Hstep.
  destruct (awaited_list_pristine w id limit0 rest Hw Hex) as (Hdev & _ & Hrows & _).
  destruct (settle_awaited_list w w' id limit0 rest _ Hex Hstep) as (Hui & Hfl & Hst).
  destruct (fetchDevices_resume_failing limit0 o (ui w) Hfail) as [e He].
  rewrite Hui, Hfl, Hst. unfold final, effects. rewrite He. cbn.
  rewrite app_nil_r, Nat.add_0_r. repeat split; auto. discriminate.
Qed.

Lemma list_devices_failure_witness :
  ui_reachable mounted /\
  extract 0 (inflight mounted) = Some (AwaitDevices (num_of_Z 50), []) /\
  failing (Resolved (mkResponse 503 None)) /\
  step mounted (Settle 0 (Resolved (mkResponse 503 None)))
    = Some (mkWorld
              (mkState [] (JString EmptyString) (num_of_Z 50) (JArray [])
                 [Lit "Error loading devices."]
                 "Failed to load devices. Check API server or CORS." false)
              [] 1 [mkSettled 0 true 1]) /\
  devices (mkState [] (JString EmptyString) (num_of_Z 50) (JArray [])
             [Lit "Error loading devices."]
             "Failed to load devices. Check API server or CORS." false) = [].
Proof.
  split; [exact ui_mounted|]. split; [reflexivity|].
  split; [left; reflexivity|]. split; [reflexivity|].
  exact (proj1 (list_devices_failure mounted _ 0 (num_of_Z 50) []
                  (Resolved (mkResponse 503 None)) ui_mounted eq_refl
                  (or_introl eq_refl) eq_refl)).
Defined.

(** ** C3: a failed data request *)

(** C3: for every failing [fetchDeviceData] call (network error, non-2xx
    response, body that is not JSON) with a truthy device name, neither half of
    the call writes the reading list, so it is left as it was before the call;
    the error message is set to a non-empty text and the status to "Error
    loading data.". *)
Theorem fetchDeviceData_failure (deviceName : JsValue) (limitValue : JsNumber)
    (showLoading : bool) (o : FetchOutcome) (s s' : State) :
  truthy deviceName = true ->
  failing o ->
  rows (final (fetchDeviceData deviceName limitValue showLoading) s) = rows s /\
  rows (final (fetchDeviceData_resume deviceName showLoading o) s') = rows s' /\
  rows (final (fetchDeviceData_resume deviceName showLoading o)
          (final (fetchDeviceData deviceName limitValue showLoading) s)) = rows s /\
  error (final (fetchDeviceData_resume deviceName showLoading o) s')
    = "Failed to load data. Check API / database." /\
  error (final (fetchDeviceData_resume deviceName showLoading o) s') <> EmptyString /\
  status (final (fetchDeviceData_resume deviceName showLoading o) s')
    = [Lit "Error loading data."].
Proof.
  intros Hd Hfail.
  assert (Hstart : rows (final (fetchDeviceData deviceName limitValue showLoading) s)
                   = rows s).
  { unfold_js. cbn. rewrite Hd. destruct showLoading; reflexivity. }
  assert (Hres : forall t,
    rows (final (fetchDeviceData_resume deviceName showLoading o) t) = rows t /\
    error (final (fetchDeviceData_resume deviceName showLoading o) t)
      = "Failed to load data. Check API / database." /\
    status (final (fetchDeviceData_resume deviceName showLoading o) t)
      = [Lit "Error loading data."]).
  { intros t. destruct o as [|res]; simpl in Hfail.
    - destruct showLoading; cbn; repeat split.
    - destruct Hfail as [Hok|Hbody].
      + unfold_js. cbn. rewrite Hok. destruct showLoading; cbn; repeat split.
      + unfold_js. cbn. rewrite Hbody.
        destruct (res_ok res), showLoading; cbn; repeat split. }
  destruct (Hres s') as (Hr & He & Hs).
  destruct (Hres (final (fetchDeviceData deviceName limitValue showLoading) s))
    as (Hr' & _ & _).
  repeat split; try assumption; congruence.
Qed.

Lemma fetchDeviceData_failure_witness :
  truthy (JString "sensor-1") = true /\
  failing Rejected /\
  rows (final (fetchDeviceData_resume (JString "sensor-1") true Rejected)
          (final (fetchDeviceData (JString "sensor-1") (num_of_Z 50) true) loaded_state))
    = rows loaded_state.
Proof.
  split; [reflexivity|]. split; [exact I|].
  apply (fetchDeviceData_failure (JString "sensor-1") (num_of_Z 50) true Rejected
           loaded_state loaded_state); [reflexivity|exact I].
Defined.

(** ** C4: a device list with at least one name *)

(** C4, as stated, fails twice. The limit of the call is the one the closure
    of [fetchDevices] holds since the mount: when the limit input is changed
    to 7 while the list request is in flight, the data request still carries
    50. And a first name with no conversion to a string makes the template of
    the status throw after the selection: the [catch] block runs and
    [fetchDeviceData] is not called. *)
Lemma C4_stale_limit_and_unprintable_name :
  (exists w,
     ui_run mounted [LimitChange "7";
                     Settle 0 (ok_response (JArray [device_record "a"]))] = Some w /\
     ui_reachable w /\
     limit (ui w) = num_of_Z 7 /\
     inflight w = [(1%nat, AwaitData (JString "a") (num_of_Z 50) true)] /\
     num_of_Z 50 <> num_of_Z 7) /\
  (deviceNamesOf (JArray [JObject [("device_name", unprintable_name)]])
     = Normal [unprintable_name] /\
   calls (effects (fetchDevices_resume (num_of_Z 50)
                     (ok_response (JArray [JObject [("device_name", unprintable_name)]])))
            (final fetchDevices initialState)) = [] /\
   exists w,
     ui_run mounted
       [Settle 0 (ok_response (JArray [JObject [("device_name", unprintable_name)]]))]
     = Some w /\
     selectedDevice (ui w) = unprintable_name /\
     inflight w = [] /\
     started w = 1%nat /\
     error (ui w) = "Failed to load devices. Check API server or CORS.").
Proof.
  split.
  - exists (mkWorld
              (mkState [JString "a"] (JString "a") (num_of_Z 7) (JArray [])
                 [Lit "Loading data for "; Interp (JString "a"); Lit "…"]
                 EmptyString true)
              [(1%nat, AwaitData (JString "a") (num_of_Z 50) true)] 2
              [mkSettled 0 false 1]).
    split; [vm_compute; reflexivity|].
    split; [apply (ui_run_reachable
                     [LimitChange "7"; Settle 0 (ok_response (JArray [device_record "a"]))]
                     mounted _ ui_mounted); vm_compute; reflexivity|].
    split; [reflexivity|]. split; [reflexivity|]. discriminate.
  - split; [reflexivity|]. split; [reflexivity|].
    exists (mkWorld
              (mkState [unprintable_name] unprintable_name (num_of_Z 50) (JArray [])
                 [Lit "Error loading devices."]
                 "Failed to load devices. Check API server or CORS." false)
              [] 1 [mkSettled 0 true 1]).
    split; [vm_compute; reflexivity|]. repeat split.
Qed.

(** C4, amended: for every device-list response that normalizes to at least
    one name, the first of which converts to a string, the list-devices
    operation stores the names, selects the first name and calls
    [fetchDeviceData] exactly once, for that name with [showLoading = true],
    and with the limit as it was when the operation started, whatever the
    limit is by then; this is the current limit when the limit was not changed
    in between. *)
Theorem fetchDevices_selects_first (s0 : State) (res : Response) (data first : JsValue)
    (rest : list JsValue) (s : State) :
  res_ok res = true ->
  res_body res = Some data ->
  deviceNamesOf data = Normal (first :: rest) ->
  printable first = true ->
  requests (effects fetchDevices s0) = [AwaitDevices (limit s0)] /\
  devices (final (fetchDevices_resume (limit s0) (Resolved res)) s) = first :: rest /\
  selectedDevice (final (fetchDevices_resume (limit s0) (Resolved res)) s) = first /\
  calls (effects (fetchDevices_resume (limit s0) (Resolved res)) s)
    = [Call_fetchDeviceData first (limit s0) true] /\
  (limit s = limit s0 ->
   calls (effects (fetchDevices_resume (limit s0) (Resolved res)) s)
     = [Call_fetchDeviceData first (limit s) true]).
Proof.
  intros Hok Hbody Hnames Hprint.
  assert (Hcalls : calls (effects (fetchDevices_resume (limit s0) (Resolved res)) s)
                   = [Call_fetchDeviceData first (limit s0) true]).
  { unfold_js. cbn. rewrite Hok. cbn. rewrite Hbody. cbn.
    rewrite Hnames. cbn. rewrite Hprint. cbn.
    destruct (truthy first); reflexivity. }
  split; [reflexivity|].
  split; [|split; [|split; [exact Hcalls|]]].
  3: intros Hlimit; rewrite Hlimit; exact Hcalls.
  all: unfold_js; cbn; rewrite Hok; cbn; rewrite Hbody; cbn;
    rewrite Hnames; cbn; rewrite Hprint; cbn;
    destruct (truthy first); reflexivity.
Qed.

Lemma fetchDevices_selects_first_witness :
  res_ok (mkResponse 200 (Some (JArray [device_record "a"; device_record "b"]))) = true /\
  deviceNamesOf (JArray [device_record "a"; device_record "b"])
    = Normal [JString "a"; JString "b"] /\
  printable (JString "a") = true /\
  calls (effects (fetchDevices_resume (limit initialState)
                    (ok_response (JArray [device_record "a"; device_record "b"])))
           (final fetchDevices initialState))
    = [Call_fetchDeviceData (JString "a") (num_of_Z 50) true].
Proof.
  split; [reflexivity|]. split; [reflexivity|]. split; [reflexivity|].
  exact (proj1 (proj2 (proj2 (proj2
           (fetchDevices_selects_first initialState
              (mkResponse 200 (Some (JArray [device_record "a"; device_record "b"])))
              (JArray [device_record "a"; device_record "b"])
              (JString "a") [JString "b"] (final fetchDevices initialState)
              eq_refl eq_refl eq_refl eq_refl))))).
Defined.

(** ** C5: the background tick *)



(** ** C6: the loading flag *)



(** ** C7: the row limit *)

(** C7: for every string typed in the limit input, the change-limit handler
    stores a number between 1 and 500: a number above 500 (or +Infinity)
    becomes 500, a number below 1 (or -Infinity) becomes 1, a string that is
    not a number and the empty string become 1, and a number from 1 up to 500
    is stored as it is; the limit starts at 50, and in every state the running
    component can reach it is between 1 and 500. *)
Theorem limit_always_clamped (value : string) (s : State) (w : World) :
  reachable w ->
  limit_in_range (limit (final (limitInput_onChange value) s)) /\
  (forall q, Number value = Finite q -> (500 < q)%Q ->
     limit (final (limitInput_onChange value) s) = num_of_Z 500) /\
  (Number value = PosInfinity ->
     limit (final (limitInput_onChange value) s) = num_of_Z 500) /\
  (forall q, Number value = Finite q -> (q < 1)%Q ->
     limit (final (limitInput_onChange value) s) = num_of_Z 1) /\
  (Number value = NegInfinity ->
     limit (final (limitInput_onChange value) s) = num_of_Z 1) /\
  (Number value = NaN ->
     limit (final (limitInput_onChange value) s) = num_of_Z 1) /\
  (forall q, Number value = Finite q -> (1 <= q)%Q -> (q < 500)%Q ->
     limit (final (limitInput_onChange value) s) = Finite q) /\
  limit (final (limitInput_onChange EmptyString) s) = num_of_Z 1 /\
  limit initialState = num_of_Z 50 /\
  limit_in_range (limit (ui w)).
Proof.
  intros Hw.
  assert (Hstore : limit (final (limitInput_onChange value) s)
                   = clampLimit (Number value)) by reflexivity.
  rewrite Hstore.
  split; [apply clampLimit_in_range|].
  split; [intros q -> Hq; apply clampLimit_above, Hq|].
  split; [intros ->; reflexivity|].
  split; [intros q -> Hq; apply clampLimit_below, Hq|].
  split; [intros ->; reflexivity|].
  split; [intros ->; reflexivity|].
  split; [intros q -> H1 H500; apply clampLimit_inside; assumption|].
  split; [reflexivity|].
  split; [reflexivity|].
  apply reachable_limit, Hw.
Qed.

Lemma limit_always_clamped_witness :
  reachable mounted /\
  limit (final (limitInput_onChange "600") initialState) = num_of_Z 500.
Proof.
  split; [exact reach_mounted|].
  exact (proj1 (proj2 (limit_always_clamped "600" initialState mounted reach_mounted))
           (inject_Z 600) eq_refl eq_refl).
Defined.

(** ** C8: the name of a device record *)

(** C8, as stated, fails: a record with none of the three fields yields
    [undefined], not the raw record, and a record whose [device_name] is
    present but empty yields the value of the next field. *)
Lemma C8_no_raw_fallback :
  deviceNameOf (JObject []) = Normal JUndefined /\
  deviceName_spec (JObject []) = JObject [] /\
  deviceNameOf (JObject []) <> Normal (deviceName_spec (JObject [])) /\
  deviceNameOf (JObject [("device_name", JString EmptyString); ("device", JString "x")])
    = Normal (JString "x") /\
  deviceName_spec (JObject [("device_name", JString EmptyString); ("device", JString "x")])
    = JString EmptyString.
Proof. repeat split. discriminate. Qed.

(** C8, amended: for every device record that is not [null], the normalized
    name is the first truthy value among the fields [device_name], [device],
    [deviceName], and otherwise the value of [deviceName] ([undefined] when
    the field is absent); there is no fall-back to the raw record. Every
    record of the response yields exactly one entry of the name list, in
    order, which may be [undefined] or another falsy value. *)
Theorem deviceNameOf_first_truthy (d : JsValue) (items : list JsValue) :
  is_nullish d = false ->
  forallb (fun x => negb (is_nullish x)) items = true ->
  deviceNameOf d = Normal (firstTruthyName d) /\
  deviceNamesOf (JArray items) = Normal (map firstTruthyName items) /\
  length (map firstTruthyName items) = length items.
Proof.
  assert (Hone : forall x, is_nullish x = false ->
                   deviceNameOf x = Normal (firstTruthyName x)).
  { intros x Hx. unfold deviceNameOf, firstTruthyName, or_else.
    destruct x; try discriminate; try reflexivity.
    cbn.
    destruct (lookup "device_name" props) as [a|], (lookup "device" props) as [b|];
      cbn; try reflexivity;
      repeat match goal with
             | |- context [truthy ?v] => destruct (truthy v) eqn:?; cbn
             end;
      try reflexivity; congruence. }
  intros Hd Hitems. split; [exact (Hone d Hd)|]. split; [|apply length_map].
  simpl. induction items as [|x items IH]; [reflexivity|].
  simpl in Hitems. apply andb_true_iff in Hitems. destruct Hitems as [Hx Hrest].
  apply negb_true_iff in Hx. simpl. rewrite (Hone x Hx), (IH Hrest). reflexivity.
Qed.

Lemma deviceNameOf_first_truthy_witness :
  is_nullish (JObject [("device", JString "pump")]) = false /\
  forallb (fun x => negb (is_nullish x)) [device_record "a"; JObject []] = true /\
  deviceNamesOf (JArray [device_record "a"; JObject []])
    = Normal [JString "a"; JUndefined].
Proof.
  split; [reflexivity|]. split; [reflexivity|].
  exact (proj1 (proj2 (deviceNameOf_first_truthy (JObject [("device", JString "pump")])
                         [device_record "a"; JObject []] eq_refl eq_refl))).
Defined.

(** ** C9: the round trip of the example response *)

(** C9: when a data request settles with the example response, the reading
    list holds exactly the one row of the response; the payload of that row
    parses to the object [{a: 1}]; the row renders with the serialization of
    that object in the payload cell and the local date and time of its
    timestamp (not the dash) in the timestamp cell; and parsing the
    serialization again yields the value the original payload parses to. *)
Theorem example_round_trip (Date_toLocaleString : JsValue -> string)
    (deviceName : JsValue) (showLoading : bool) (s : State) :
  rows (final (fetchDeviceData_resume deviceName showLoading (Resolved example_response)) s)
    = JArray [example_row] /\
  JSON_parse example_payload_text = Normal (JObject [("a", JNumber (num_of_Z 1))]) /\
  renderRows Date_toLocaleString
    (rows (final (fetchDeviceData_resume deviceName showLoading
                    (Resolved example_response)) s))
  = Normal [ {| cell_number := num_of_Z 1;
                cell_topic := JString "t1";
                cell_payload := example_payload_cell;
                cell_raw := JString "-";
                cell_timestamp := Date_toLocaleString (JString "2024-01-01T00:00:00Z") |} ] /\
  JSON_stringify (JObject [("a", JNumber (num_of_Z 1))]) = Some example_payload_cell /\
  template_text example_payload_cell = Some example_payload_pretty /\
  JSON_parse example_payload_pretty = JSON_parse example_payload_text.
Proof.
  assert (Hrows :
    rows (final (fetchDeviceData_resume deviceName showLoading
                   (Resolved example_response)) s) = JArray [example_row])
    by (unfold_js; cbn; destruct (printable deviceName), showLoading; reflexivity).
  rewrite Hrows.
  split; [reflexivity|].
  split; [vm_compute; reflexivity|].
  split; [vm_compute; reflexivity|].
  split; [vm_compute; reflexivity|].
  split; vm_compute; reflexivity.
Qed.

(** ** C10: the error message *)




(** * Further properties of the component *)

(** ** The change of the selected device *)



(** ** The refresh button *)



(** ** A call without a device name *)

(** A falsy value is a primitive: its conversion to a string never throws. *)
Lemma falsy_printable v : truthy v = false -> printable v = true.
Proof. destruct v; try reflexivity; discriminate. Qed.

(** X3: [fetchDeviceData] called with a falsy device name only sets the
    status "Please select a device.": it issues no request, and it neither
    resets the error message nor writes the loading flag or the readings.
    The list-devices operation makes such a call when the first record of the
    response yields a falsy name: the list is stored, the falsy name is
    selected, and the status ends as "Please select a device.". *)
Theorem fetchDeviceData_without_name (deviceName : JsValue) (limitValue limit0 : JsNumber)
    (showLoading : bool) (res : Response) (data : JsValue) (rest : list JsValue)
    (s : State) :
  truthy deviceName = false ->
  res_ok res = true ->
  res_body res = Some data ->
  deviceNamesOf data = Normal (deviceName :: rest) ->
  (final (fetchDeviceData deviceName limitValue showLoading) s
     = mkState (devices s) (selectedDevice s) (limit s) (rows s)
         [Lit "Please select a device."] (error s) (loading s) /\
   requests (effects (fetchDeviceData deviceName limitValue showLoading) s) = []) /\
  (final (fetchDevices_resume limit0 (Resolved res)) s
     = mkState (deviceName :: rest) deviceName (limit s) (rows s)
         [Lit "Please select a device."] (error s) (loading s) /\
   requests (effects (fetchDevices_resume limit0 (Resolved res)) s) = []).
Proof.
  intros Hd Hok Hbody Hnames. split.
  - unfold_js. cbn. rewrite Hd. cbn. split; reflexivity.
  - unfold_js. cbn. rewrite Hok. cbn. rewrite Hbody. cbn. rewrite Hnames. cbn.
    rewrite (falsy_printable deviceName Hd). cbn. rewrite Hd. cbn. split; reflexivity.
Qed.

Lemma fetchDeviceData_without_name_witness :
  truthy JUndefined = false /\
  deviceNamesOf (JArray [JObject [("id", JNumber (num_of_Z 7))]]) = Normal [JUndefined] /\
  status (final (fetchDevices_resume (num_of_Z 50)
                   (ok_response (JArray [JObject [("id", JNumber (num_of_Z 7))]])))
            initialState)
    = [Lit "Please select a device."].
Proof.
  split; [reflexivity|]. split; [reflexivity|].
  exact (f_equal status
           (proj1 (proj2
              (fetchDeviceData_without_name JUndefined (num_of_Z 50) (num_of_Z 50) true
                 (mkResponse 200 (Some (JArray [JObject [("id", JNumber (num_of_Z 7))]])))
                 (JArray [JObject [("id", JNumber (num_of_Z 7))]]) [] initialState
                 eq_refl eq_refl eq_refl eq_refl)))).
Defined.

(** ** A data response *)

Lemma getProp_own (v : JsValue) (k : string) :
  is_nullish v = false -> getProp v k = Normal (own v k).
Proof. destruct v; try discriminate; reflexivity. Qed.

(** X4: when a data request settles with a 2xx response whose JSON body is
    not [null], and the [count] of the body (or 0) and the device name convert
    to a string, the reading list is replaced by the [data] of the body (by
    the empty list when [data] is missing or falsy), whatever it held before
    and whether or not the device of the request is still the selected one;
    the status reports the [count] of the body (0 when missing or falsy) for
    the device of the request; the error message, the selection, the device
    list and the limit are not written; the loading flag is cleared exactly
    when [showLoading] is true; no request is issued. *)
Theorem fetchDeviceData_success (deviceName : JsValue) (showLoading : bool)
    (res : Response) (json : JsValue) (s : State) :
  res_ok res = true ->
  res_body res = Some json ->
  is_nullish json = false ->
  printable (js_or (own json "count") (JNumber (num_of_Z 0))) = true ->
  printable deviceName = true ->
  final (fetchDeviceData_resume deviceName showLoading (Resolved res)) s
    = mkState (devices s) (selectedDevice s) (limit s)
        (js_or (own json "data") (JArray []))
        [Lit "Loaded "; Interp (js_or (own json "count") (JNumber (num_of_Z 0)));
         Lit " rows for "; Interp deviceName; Lit "."]
        (error s) (if showLoading then false else loading s) /\
  requests (effects (fetchDeviceData_resume deviceName showLoading (Resolved res)) s) = [] /\
  caught (effects (fetchDeviceData_resume deviceName showLoading (Resolved res)) s) = false.
Proof.
  intros Hok Hbody Hjson Hcount Hname. unfold_js. cbn. rewrite Hok. cbn. rewrite Hbody.
  rewrite !(getProp_own _ _ Hjson). cbn. rewrite Hcount, Hname.
  destruct showLoading; cbn; repeat split.
Qed.

Lemma fetchDeviceData_success_witness :
  res_ok example_response = true /\
  printable (JNumber (num_of_Z 1)) = true /\
  printable (JString "other") = true /\
  rows (final (fetchDeviceData_resume (JString "other") false (Resolved example_response))
          loaded_state) = JArray [example_row] /\
  selectedDevice
    (final (fetchDeviceData_resume (JString "other") false (Resolved example_response))
       loaded_state) = JString "sensor-1".
Proof.
  split; [reflexivity|]. split; [reflexivity|]. split; [reflexivity|].
  pose proof (proj1 (fetchDeviceData_success (JString "other") false example_response
                       (JObject [("data", JArray [example_row]);
                                 ("count", JNumber (num_of_Z 1))])
                       loaded_state eq_refl eq_refl eq_refl eq_refl eq_refl)) as H.
  split; [exact (f_equal rows H)|exact (f_equal selectedDevice H)].
Defined.

(** X18: when the body of a 2xx data response is not [null] but its [count]
    has no conversion to a string (an object with a property [toString]), the
    template of the status throws inside the [try] block after the readings
    were stored: the reading list is replaced by the [data] of the body and
    the [catch] block sets the error text and the status "Error loading
    data."; the loading flag is cleared exactly when [showLoading] is true. *)
Theorem unprintable_count_is_a_failure (deviceName : JsValue) (showLoading : bool)
    (res : Response) (json : JsValue) (s : State) :
  res_ok res = true ->
  res_body res = Some json ->
  is_nullish json = false ->
  printable (js_or (own json "count") (JNumber (num_of_Z 0))) = false ->
  final (fetchDeviceData_resume deviceName showLoading (Resolved res)) s
    = mkState (devices s) (selectedDevice s) (limit s)
        (js_or (own json "data") (JArray []))
        [Lit "Error loading data."] data_error_text
        (if showLoading then false else loading s) /\
  requests (effects (fetchDeviceData_resume deviceName showLoading (Resolved res)) s) = [] /\
  caught (effects (fetchDeviceData_resume deviceName showLoading (Resolved res)) s) = true.
Proof.
  intros Hok Hbody Hjson Hcount. unfold_js. cbn. rewrite Hok. cbn. rewrite Hbody.
  rewrite !(getProp_own _ _ Hjson). cbn. rewrite Hcount.
  destruct showLoading; cbn; repeat split.
Qed.

Lemma unprintable_count_is_a_failure_witness :
  res_ok (mkResponse 200 (Some (JObject [("data", JArray []);
                                         ("count", unprintable_name)]))) = true /\
  printable (js_or (own (JObject [("data", JArray []); ("count", unprintable_name)])
                        "count") (JNumber (num_of_Z 0))) = false /\
  final (fetchDeviceData_resume (JString "sensor-1") true
           (ok_response (JObject [("data", JArray []); ("count", unprintable_name)])))
    loaded_state
  = mkState [JString "sensor-1"] (JString "sensor-1") (num_of_Z 50) (JArray [])
      [Lit "Error loading data."] data_error_text false.
Proof.
  split; [reflexivity|]. split; [reflexivity|].
  exact (proj1 (unprintable_count_is_a_failure (JString "sensor-1") true
                  (mkResponse 200 (Some (JObject [("data", JArray []);
                                                  ("count", unprintable_name)])))
                  (JObject [("data", JArray []); ("count", unprintable_name)])
                  loaded_state eq_refl eq_refl eq_refl eq_refl)).
Defined.

(** X5: a 2xx data response whose body is the JSON value [null] is handled
    as a failure: the [catch] block runs, the error message is set and the
    readings are kept. A 2xx body that is not [null] and has no truthy [data]
    empties the reading list; the error message is then kept when the [count]
    of the body (or 0) and the device name convert to a string, and the status
    reports 0 rows when the body has no truthy [count] either. *)
Theorem fetchDeviceData_odd_bodies (deviceName : JsValue) (showLoading : bool)
    (status0 : Z) (json : JsValue) (s : State) :
  res_ok (mkResponse status0 (Some json)) = true ->
  (is_nullish json = true ->
   caught (effects (fetchDeviceData_resume deviceName showLoading
                      (Resolved (mkResponse status0 (Some json)))) s) = true /\
   error (final (fetchDeviceData_resume deviceName showLoading
                   (Resolved (mkResponse status0 (Some json)))) s) = data_error_text /\
   rows (final (fetchDeviceData_resume deviceName showLoading
                  (Resolved (mkResponse status0 (Some json)))) s) = rows s) /\
  (is_nullish json = false -> truthy (own json "data") = false ->
   rows (final (fetchDeviceData_resume deviceName showLoading
                  (Resolved (mkResponse status0 (Some json)))) s) = JArray [] /\
   (printable (js_or (own json "count") (JNumber (num_of_Z 0))) = true ->
    printable deviceName = true ->
    error (final (fetchDeviceData_resume deviceName showLoading
                    (Resolved (mkResponse status0 (Some json)))) s) = error s) /\
   (truthy (own json "count") = false ->
    printable deviceName = true ->
    status (final (fetchDeviceData_resume deviceName showLoading
                     (Resolved (mkResponse status0 (Some json)))) s)
      = [Lit "Loaded "; Interp (JNumber (num_of_Z 0)); Lit " rows for ";
         Interp deviceName; Lit "."])).
Proof.
  intros Hok. split.
  - intros Hnull. unfold_js. cbn. cbn in Hok. rewrite Hok. cbn.
    destruct json; try discriminate; destruct showLoading; cbn; repeat split.
  - intros Hjson Hdata.
    assert (Hd : js_or (own json "data") (JArray []) = JArray [])
      by (unfold js_or; rewrite Hdata; reflexivity).
    unfold_js. cbn. cbn in Hok. rewrite Hok. cbn.
    rewrite !(getProp_own _ _ Hjson). cbn. rewrite Hd.
    split; [|split].
    + destruct (printable (js_or _ _)), (printable deviceName), showLoading;
        reflexivity.
    + intros Hcount Hname. rewrite Hcount, Hname. destruct showLoading; reflexivity.
    + intros Hcount Hname. unfold js_or. rewrite Hcount. cbn. rewrite Hname.
      destruct showLoading; reflexivity.
Qed.

Lemma fetchDeviceData_odd_bodies_witness :
  res_ok (mkResponse 200 (Some JNull)) = true /\
  is_nullish JNull = true /\
  rows (final (fetchDeviceData_resume (JString "sensor-1") true
                 (Resolved (mkResponse 200 (Some JNull)))) loaded_state)
    = JArray [example_row].
Proof.
  split; [reflexivity|]. split; [reflexivity|].
  exact (proj2 (proj2 (proj1 (fetchDeviceData_odd_bodies (JString "sensor-1") true 200
                                JNull loaded_state eq_refl) eq_refl))).
Defined.

(** ** The body of a device-list response *)

Lemma deviceNameOf_defined d :
  is_nullish d = false -> deviceNameOf d = Normal (firstTruthyName d).
Proof.
  intros Hd. unfold deviceNameOf, firstTruthyName, or_else.
  destruct d; try discriminate; try reflexivity.
  cbn.
  destruct (lookup "device_name" props) as [a|], (lookup "device" props) as [b|];
    cbn; try reflexivity;
    repeat match goal with
           | |- context [truthy ?v] => destruct (truthy v) eqn:?; cbn
           end;
    try reflexivity; congruence.
Qed.

Lemma deviceNameOf_nullish d : is_nullish d = true -> deviceNameOf d = Throw TypeError.
Proof. destruct d; try discriminate; reflexivity. Qed.

Lemma map_throwing_spec items :
  map_throwing deviceNameOf items
  = if existsb is_nullish items then Throw TypeError
    else Normal (map firstTruthyName items).
Proof.
  induction items as [|d items IH]; [reflexivity|].
  cbn [map_throwing existsb map].
  destruct (is_nullish d) eqn:Hd.
  - rewrite (deviceNameOf_nullish d Hd). reflexivity.
  - rewrite (deviceNameOf_defined d Hd), IH. cbn [orb].
    destruct (existsb is_nullish items); reflexivity.
Qed.

(** X6: a 2xx device-list response whose body is [null] is handled as an
    empty list. A body that is neither [null] nor an array, and an array that
    holds a [null] record, make the name list throw: the [catch] block runs,
    the error message is set, and nothing of the response is stored, the
    device list and the selection are kept and no request is issued. *)
Theorem fetchDevices_odd_bodies (limit0 : JsNumber) (res : Response) (data : JsValue)
    (s : State) :
  res_ok res = true ->
  res_body res = Some data ->
  (deviceNamesOf data = Throw TypeError <-> names_throw data = true) /\
  (is_nullish data = true ->
   final (fetchDevices_resume limit0 (Resolved res)) s
     = mkState [] (JString EmptyString) (limit s) (rows s)
         [Lit "No devices found in database."] (error s) (loading s) /\
   requests (effects (fetchDevices_resume limit0 (Resolved res)) s) = []) /\
  (names_throw data = true ->
   final (fetchDevices_resume limit0 (Resolved res)) s
     = mkState (devices s) (selectedDevice s) (limit s) (rows s)
         [Lit "Error loading devices."] devices_error_text (loading s) /\
   effects (fetchDevices_resume limit0 (Resolved res)) s
     = [ConsoleError TypeError; SetError devices_error_text;
        SetStatus [Lit "Error loading devices."]]).
Proof.
  intros Hok Hbody.
  assert (Hthrow : deviceNamesOf data = Throw TypeError <-> names_throw data = true).
  { destruct data; simpl; try (split; [reflexivity|reflexivity]);
      try (split; discriminate).
    rewrite map_throwing_spec. destruct (existsb is_nullish items); split;
      try reflexivity; discriminate. }
  split; [exact Hthrow|]. split.
  - intros Hnull. unfold_js. cbn. rewrite Hok. cbn. rewrite Hbody. cbn.
    destruct data; try discriminate; cbn; split; reflexivity.
  - intros Hn. apply Hthrow in Hn.
    unfold_js. cbn. rewrite Hok. cbn. rewrite Hbody. cbn. rewrite Hn. cbn.
    split; reflexivity.
Qed.

Lemma fetchDevices_odd_bodies_witness :
  res_ok (mkResponse 200 (Some (JArray [device_record "a"; JNull]))) = true /\
  names_throw (JArray [device_record "a"; JNull]) = true /\
  devices (final (fetchDevices_resume (num_of_Z 50)
                    (ok_response (JArray [device_record "a"; JNull])))
             initialState) = [].
Proof.
  split; [reflexivity|]. split; [reflexivity|].
  exact (f_equal devices
           (proj1 (proj2 (proj2
              (fetchDevices_odd_bodies (num_of_Z 50)
                 (mkResponse 200 (Some (JArray [device_record "a"; JNull])))
                 (JArray [device_record "a"; JNull]) initialState eq_refl eq_refl))
              eq_refl))).
Defined.

(** ** Requests per event *)

Lemma handler_one_request ev m s :
  handler ev = Some m -> (length (requests (effects m s)) <= 1)%nat.
Proof. destruct ev; simpl; intros [= <-]; crunch; simpl; lia. Qed.

Lemma resume_one_request p o s :
  (length (requests (effects (resume p o) s)) <= 1)%nat /\
  (caught (effects (resume p o) s) = true -> requests (effects (resume p o) s) = []).
Proof. crunch; simpl; split; (lia || congruence || reflexivity). Qed.

(** X7: no event makes the component issue more than one request: a change
    of the device or of the limit, a click, a tick and the settling of a
    request each issue at most one. A continuation that ends in its [catch]
    block issues none: a failed request is not retried. *)
Theorem at_most_one_request_per_event (w w' : World) (ev : Event) :
  step w ev = Some w' ->
  (started w <= started w' <= started w + 1)%nat /\
  (forall id o p rest,
     ev = Settle id o ->
     extract id (inflight w) = Some (p, rest) ->
     caught (effects (resume p o) (ui w)) = true ->
     started w' = started w /\ inflight w' = rest).
Proof.
  intros Hstep. destruct (handler ev) as [m|] eqn:Hh.
  - rewrite (step_handler _ _ _ _ Hh Hstep). simpl.
    pose proof (handler_one_request ev m (ui w) Hh). split; [lia|].
    intros id o p rest ->. discriminate Hh.
  - destruct ev; try discriminate.
    destruct (step_settle _ _ _ _ Hstep) as (p & rest & Hex & _ & Hfl & Hst & _).
    destruct (resume_one_request p o (ui w)) as [Hle Hc].
    split; [lia|].
    intros id' o' p' rest' [= <- <-] Hex' Hcaught.
    rewrite Hex in Hex'. injection Hex' as <- <-.
    rewrite Hst, Hfl, (Hc Hcaught). simpl. rewrite Nat.add_0_r, app_nil_r.
    split; reflexivity.
Qed.

Lemma at_most_one_request_per_event_witness :
  step mounted (Settle 0 Rejected)
    = Some (mkWorld
              (mkState [] (JString EmptyString) (num_of_Z 50) (JArray [])
                 [Lit "Error loading devices."] devices_error_text false)
              [] 1 [mkSettled 0 true 1]) /\
  (1 <= 1 <= 1 + 1)%nat.
Proof.
  split; [reflexivity|].
  exact (proj1 (at_most_one_request_per_event mounted _ (Settle 0 Rejected) eq_refl)).
Defined.

(** ** Who writes the limit *)

Lemma handler_keeps_limit ev m s :
  handler ev = Some m -> (forall v, ev <> LimitChange v) -> limit (final m s) = limit s.
Proof.
  intros Hh Hev.
  destruct ev as [v|v| | |]; simpl in Hh; try discriminate; injection Hh as <-;
    [ | exfalso; exact (Hev v eq_refl) | | ]; crunch; reflexivity.
Qed.

(** X9: a change of the limit input writes the limit and nothing else, and
    issues no request; no other event writes the limit. *)
Theorem limit_written_by_its_input_only (w w' : World) (ev : Event) (value : string)
    (s : State) :
  step w ev = Some w' ->
  (effects (limitInput_onChange value) s = [SetLimit (clampLimit (Number value))] /\
   final (limitInput_onChange value) s
     = mkState (devices s) (selectedDevice s) (clampLimit (Number value)) (rows s)
         (status s) (error s) (loading s)) /\
  ((forall v, ev <> LimitChange v) -> limit (ui w') = limit (ui w)).
Proof.
  intros Hstep. split; [split; reflexivity|].
  intros Hev. destruct (handler ev) as [m|] eqn:Hh.
  - rewrite (step_handler _ _ _ _ Hh Hstep). simpl.
    exact (handler_keeps_limit ev m (ui w) Hh Hev).
  - destruct ev; try discriminate.
    destruct (step_settle _ _ _ _ Hstep) as (p & rest & _ & -> & _).
    apply resume_limit.
Qed.

Lemma limit_written_by_its_input_only_witness :
  step (mkWorld loaded_state [] 3 []) (DeviceChange "pump-7")
    = Some (dispatch (handleDeviceChange "pump-7") (mkWorld loaded_state [] 3 [])) /\
  limit (ui (dispatch (handleDeviceChange "pump-7") (mkWorld loaded_state [] 3 [])))
    = num_of_Z 50.
Proof.
  split; [reflexivity|].
  refine (proj2 (limit_written_by_its_input_only (mkWorld loaded_state [] 3 []) _
                   (DeviceChange "pump-7") "600" loaded_state eq_refl) _).
  intros v H. discriminate H.
Defined.

(** ** The device list is loaded once *)

Lemma handler_keeps_devices ev m s :
  handler ev = Some m -> devices (final m s) = devices s.
Proof. destruct ev; simpl; intros [= <-]; crunch; reflexivity. Qed.

Lemma resume_data_keeps_devices d l sl o s :
  devices (final (resume (AwaitData d l sl) o) s) = devices s.
Proof. crunch; reflexivity. Qed.

Lemma step_devices_frozen w ev w' :
  devices_pending w = 0%nat -> step w ev = Some w' -> devices (ui w') = devices (ui w).
Proof.
  intros Hnone Hstep. destruct (handler ev) as [m|] eqn:Hh.
  - rewrite (step_handler _ _ _ _ Hh Hstep). simpl.
    apply (handler_keeps_devices ev m (ui w) Hh).
  - destruct ev; try discriminate.
    destruct (step_settle _ _ _ _ Hstep) as (p & rest & Hex & -> & _).
    unfold devices_pending in Hnone. rewrite (extract_filter _ _ _ _ Hex) in Hnone.
    destruct p as [l|d l sl]; [simpl in Hnone; discriminate|].
    apply resume_data_keeps_devices.
Qed.

Lemma run_devices_frozen evs : forall w w',
  devices_pending w = 0%nat -> run w evs = Some w' -> devices (ui w') = devices (ui w).
Proof.
  induction evs as [|ev evs IH]; simpl; intros w w' Hnone.
  - intros [= <-]. reflexivity.
  - destruct (step w ev) as [w1|] eqn:Hstep; [|discriminate].
    intros Hrun. rewrite (IH w1 w'); [apply (step_devices_frozen w ev w1 Hnone Hstep)| |exact Hrun].
    pose proof (step_devices_pending w ev w1 Hstep). lia.
Qed.

(** X8: the device list is loaded once. When the request of [fetchDevices]
    has settled, with a list or with a failure, no later event changes the
    device list: no handler and no continuation calls [fetchDevices] again. *)
Theorem device_list_loaded_once (w w1 w2 : World) (id : nat) (o : FetchOutcome)
    (limit0 : JsNumber) (rest : list (nat * Pending)) (evs : list Event) :
  reachable w ->
  extract id (inflight w) = Some (AwaitDevices limit0, rest) ->
  step w (Settle id o) = Some w1 ->
  run w1 evs = Some w2 ->
  devices_pending w1 = 0%nat /\ devices (ui w2) = devices (ui w1).
Proof.
  intros Hw Hex Hstep Hrun.
  assert (Hnone : devices_pending w1 = 0%nat).
  { pose proof (reachable_devices_pending w Hw) as Hle.
    destruct (step_settle _ _ _ _ Hstep) as (p & rest' & Hex' & _ & Hfl & _).
    rewrite Hex in Hex'. injection Hex' as <- <-.
    unfold devices_pending in *. rewrite (extract_filter _ _ _ _ Hex) in Hle.
    rewrite Hfl, filter_app, length_app, filter_number, resume_no_devices_request.
    simpl in *. lia. }
  split; [exact Hnone|]. exact (run_devices_frozen evs w1 w2 Hnone Hrun).
Qed.

Lemma device_list_loaded_once_witness :
  reachable mounted /\
  extract 0 (inflight mounted) = Some (AwaitDevices (num_of_Z 50), []) /\
  step mounted (Settle 0 (ok_response (JArray [device_record "a"; device_record "b"])))
    = Some two_devices_world /\
  run two_devices_world (tl overlapping_loads) = Some overlapped_world /\
  devices (ui overlapped_world) = devices (ui two_devices_world).
Proof.
  split; [exact reach_mounted|]. split; [reflexivity|].
  split; [reflexivity|]. split; [vm_compute; reflexivity|].
  refine (proj2 (device_list_loaded_once mounted two_devices_world overlapped_world 0
                   (ok_response (JArray [device_record "a"; device_record "b"]))
                   (num_of_Z 50) [] (tl overlapping_loads)
                   reach_mounted eq_refl eq_refl _)).
  vm_compute; reflexivity.
Defined.

(** ** Two loads with the loading indicator *)



(** ** What the error banner can show *)

Lemma handler_error ev m s :
  handler ev = Some m ->
  error (final m s) = EmptyString \/ error (final m s) = error s.
Proof. destruct ev; simpl; intros [= <-]; crunch; auto. Qed.

Lemma resume_error p o s :
  known_error (error (final (resume p o) s)) \/ error (final (resume p o) s) = error s.
Proof. unfold known_error, devices_error_text, data_error_text. crunch; auto. Qed.

(** X13: in every state the running component can reach, the error message
    is empty or one of the two fixed texts of the [catch] blocks; what was
    thrown is written to the console only. *)
Theorem error_is_one_of_two_texts (w : World) :
  reachable w -> known_error (error (ui w)).
Proof.
  induction 1 as [|w ev w' Hw IH Hstep]; [left; reflexivity|].
  destruct (handler ev) as [m|] eqn:Hh.
  - rewrite (step_handler _ _ _ _ Hh Hstep). simpl.
    destruct (handler_error ev m (ui w) Hh) as [->| ->]; [left; reflexivity|exact IH].
  - destruct ev; try discriminate.
    destruct (step_settle _ _ _ _ Hstep) as (p & rest & _ & -> & _).
    destruct (resume_error p o (ui w)) as [Hk| ->]; [exact Hk|exact IH].
Qed.

Lemma error_is_one_of_two_texts_witness :
  reachable mounted /\ known_error (error (ui mounted)).
Proof.
  split; [exact reach_mounted|]. exact (error_is_one_of_two_texts mounted reach_mounted).
Defined.

(** ** The reading list *)

Lemma truthy_or_array v : truthy (js_or v (JArray [])) = true.
Proof. unfold js_or. destruct (truthy v) eqn:H; [exact H|reflexivity]. Qed.

Lemma handler_rows ev m s :
  handler ev = Some m ->
  rows (final m s) = JArray [] \/ rows (final m s) = rows s.
Proof. destruct ev; simpl; intros [= <-]; crunch; auto. Qed.

Lemma resume_rows p o s :
  truthy (rows (final (resume p o) s)) = true \/ rows (final (resume p o) s) = rows s.
Proof.
  destruct p as [l|d l sl]; [right; crunch; reflexivity|].
  unfold_js. cbn.
  destruct o as [|res]; cbn; [right; destruct sl; reflexivity|].
  destruct (res_ok res); cbn; [|right; destruct sl; reflexivity].
  destruct (res_body res) as [json|]; cbn; [|right; destruct sl; reflexivity].
  destruct (getProp json "data") as [data|e] eqn:Hdata; cbn;
    [|right; destruct sl; reflexivity].
  destruct (getProp json "count") as [count|e]; cbn;
    [destruct (printable (js_or count _)), (printable d)|]; cbn; destruct sl; cbn;
    first [left; apply truthy_or_array | right; reflexivity].
Qed.

(** X15: in every state the running component can reach, the reading list
    is a truthy value: the continuation of a data request stores [json.data
    || []] and the select stores [[]], never [null] or [undefined]. *)
Theorem reading_list_is_truthy (w : World) :
  reachable w -> truthy (rows (ui w)) = true.
Proof.
  induction 1 as [|w ev w' Hw IH Hstep]; [reflexivity|].
  destruct (handler ev) as [m|] eqn:Hh.
  - rewrite (step_handler _ _ _ _ Hh Hstep). simpl.
    destruct (handler_rows ev m (ui w) Hh) as [->| ->]; [reflexivity|exact IH].
  - destruct ev; try discriminate.
    destruct (step_settle _ _ _ _ Hstep) as (p & rest & _ & -> & _).
    destruct (resume_rows p o (ui w)) as [Ht| ->]; [exact Ht|exact IH].
Qed.

Lemma reading_list_is_truthy_witness :
  reachable mounted /\ truthy (rows (ui mounted)) = true.
Proof.
  split; [exact reach_mounted|]. exact (reading_list_is_truthy mounted reach_mounted).
Defined.

(** X16: the [data] of a 2xx data response is stored as the reading list
    without a check that it is an array. When it is a truthy value that is
    not an array (a string, a number, an object, [true]), it becomes the
    reading list, and mapping the rows then throws a TypeError. *)
Theorem non_array_data_breaks_rendering (Date_toLocaleString : JsValue -> string)
    (deviceName : JsValue) (showLoading : bool) (res : Response) (json data : JsValue)
    (s : State) :
  res_ok res = true ->
  res_body res = Some json ->
  own json "data" = data ->
  truthy data = true ->
  is_array data = false ->
  rows (final (fetchDeviceData_resume deviceName showLoading (Resolved res)) s) = data /\
  renderRows Date_toLocaleString
    (rows (final (fetchDeviceData_resume deviceName showLoading (Resolved res)) s))
  = Throw TypeError.
Proof.
  intros Hok Hbody Hown Ht Harr.
  assert (Hrows : rows (final (fetchDeviceData_resume deviceName showLoading
                                 (Resolved res)) s) = data).
  { assert (Hjson : is_nullish json = false)
      by (destruct json; try reflexivity; subst data; discriminate Ht).
    assert (Hd : js_or (own json "data") (JArray []) = data)
      by (unfold js_or; rewrite Hown, Ht; reflexivity).
    unfold_js. cbn. rewrite Hok. cbn. rewrite Hbody.
    rewrite !(getProp_own _ _ Hjson). cbn. rewrite Hd.
    destruct (printable (js_or _ _)), (printable deviceName), showLoading;
      reflexivity. }
  rewrite Hrows. split; [reflexivity|].
  destruct data; try discriminate; reflexivity.
Qed.

Lemma non_array_data_breaks_rendering_witness :
  own (JObject [("data", JString "no rows")]) "data" = JString "no rows" /\
  truthy (JString "no rows") = true /\
  is_array (JString "no rows") = false /\
  renderRows (fun _ => "a date")
    (rows (final (fetchDeviceData_resume (JString "sensor-1") true
                    (ok_response (JObject [("data", JString "no rows")])))
             loaded_state))
  = Throw TypeError.
Proof.
  split; [reflexivity|]. split; [reflexivity|]. split; [reflexivity|].
  exact (proj2 (non_array_data_breaks_rendering (fun _ => "a date") (JString "sensor-1")
                  true (mkResponse 200 (Some (JObject [("data", JString "no rows")])))
                  (JObject [("data", JString "no rows")]) (JString "no rows")
                  loaded_state eq_refl eq_refl eq_refl eq_refl eq_refl)).
Defined.

(** ** The table rows *)








(** X11: in a reading the table shows, a payload that is a string but not
    JSON text never makes the row throw and sets no error: the payload cell
    shows the raw string as a JSON string literal, or a dash when the string
    is empty. *)
Theorem unparsable_payload_is_shown_raw (Date_toLocaleString : JsValue -> string)
    (row : JsValue) (text : string) (e : Exn) :
  row_renders row = true ->
  own row "payload_json" = JString text ->
  JSON_parse text = Throw e ->
  exists c,
    tableBody Date_toLocaleString (JArray [row]) = Normal [c] /\
    cell_payload c
    = (if String.eqb text EmptyString then [Lit "-"] else [Lit (quote text)]).
Proof.
  intros Hshown Hown Hparse.
  unfold row_renders in Hshown. apply andb_prop in Hshown.
  destruct Hshown as [Hmaps Hvalid].
  pose proof Hmaps as Hm. unfold row_maps, createdAt_of in Hm.
  apply andb_prop in Hm. destruct Hm as [Hnull Hdate]. apply negb_true_iff in Hnull.
  assert (Hrow : exists c,
             renderRow Date_toLocaleString row 0 = Normal c /\
             cells_valid c = true /\
             cell_payload c
             = (if String.eqb text EmptyString then [Lit "-"] else [Lit (quote text)])).
  { unfold row_children_valid in Hvalid. unfold cells_valid.
    destruct row; try discriminate; cbn [renderRow getProp own] in *.
    all: rewrite Hown; cbn [parsePayload]; rewrite Hparse.
    all: destruct (truthy (js_or _ _)); cbn [negb orb] in Hdate; [rewrite Hdate|];
      cbn [negb andb].
    all: eexists; (split; [reflexivity|]); cbn [cell_topic cell_raw cell_payload];
      (split; [exact Hvalid|]).
    all: cbn; destruct (String.eqb text EmptyString); reflexivity. }
  destruct Hrow as (c & Hc & Hv & Hp). exists c. split; [|exact Hp].
  unfold tableBody, renderRows. cbn [renderFrom]. rewrite Hc. cbn [forallb].
  rewrite Hv. reflexivity.
Qed.

Lemma unparsable_payload_is_shown_raw_witness :
  row_renders (JObject [("topic", JString "t1");
                        ("payload_json", JString "sensor offline")]) = true /\
  own (JObject [("topic", JString "t1"); ("payload_json", JString "sensor offline")])
      "payload_json" = JString "sensor offline" /\
  JSON_parse "sensor offline" = Throw SyntaxError /\
  exists c,
    tableBody (fun _ => "a date")
      (JArray [JObject [("topic", JString "t1");
                        ("payload_json", JString "sensor offline")]])
    = Normal [c] /\
    cell_payload c = [Lit (quote "sensor offline")].
Proof.
  split; [reflexivity|]. split; [reflexivity|]. split; [vm_compute; reflexivity|].
  exact (unparsable_payload_is_shown_raw (fun _ => "a date")
           (JObject [("topic", JString "t1"); ("payload_json", JString "sensor offline")])
           "sensor offline" SyntaxError eq_refl eq_refl
           (eq_refl : JSON_parse "sensor offline" = Throw SyntaxError)).
Defined.

(** ** The request URL *)






(** ** A load from the pick to the response *)


